(** * Camera Relay systray indicator: the status/action controller

    A shallow embedding of [camera-relay-systray.py] and the properties of
    its status polling, start/stop dispatch, persistent-mode toggle and
    start-up guards.

    Conventions of the embedding.
    - A Python [str] is a Rocq [string] holding its UTF-8 encoding, one
      [ascii] per byte.
    - A Python exception is a value [exn]; code that may raise returns a
      [result].
    - Answers of the outside world (what [subprocess.run] returned, which
      button closed a dialog, whether [flock] succeeded) are arguments of
      the function that asks for them.
    - Widgets, the GLib main context and the calls made to the outside
      are fields of an explicit [World], threaded through the methods by
      the monad [M]. *)

From Stdlib Require Import ZArith Ascii String List Lia.
From stdpp Require Import base option strings gmap list.

Set Warnings "-register-all,-clear-no-such-hyp".
Local Open Scope Z_scope.

(** ** Python: exceptions, results, strings, values *)

Module Py.

(** The exception classes that the program names or that its library
    calls raise. *)
Inductive exn_class : Type :=
| BaseException
| Exception
| KeyboardInterrupt
| OSError
| FileNotFoundError
| PermissionError
| BlockingIOError
| ValueError
| JSONDecodeError
| UnicodeError
| UnicodeDecodeError
| SubprocessError
| TimeoutExpired
| AttributeError
| RuntimeError
| RecursionError.

#[global] Instance exn_class_eq_dec : EqDecision exn_class.
Proof. solve_decision. Defined.

(** The direct base class, as CPython declares it. *)
Definition base (c : exn_class) : option exn_class :=
  match c with
  | BaseException => None
  | Exception | KeyboardInterrupt => Some BaseException
  | OSError | ValueError | SubprocessError | AttributeError
  | RuntimeError => Some Exception
  | FileNotFoundError | PermissionError | BlockingIOError => Some OSError
  | JSONDecodeError | UnicodeError => Some ValueError
  | UnicodeDecodeError => Some UnicodeError
  | TimeoutExpired => Some SubprocessError
  | RecursionError => Some RuntimeError
  end.

Fixpoint mro_from (depth : nat) (c : exn_class) : list exn_class :=
  c :: match depth, base c with
       | S depth', Some b => mro_from depth' b
       | _, _ => []
       end.

(** The hierarchy above is five classes deep at most. *)
Definition mro (c : exn_class) : list exn_class := mro_from 5 c.

Definition issubclass (c d : exn_class) : bool := bool_decide (d ∈ mro c).

(** An exception object: its class and [str(e)]. *)
Record exn : Type := Exn { exn_cls : exn_class; exn_str : string }.

Definition isinstance (e : exn) (c : exn_class) : bool :=
  issubclass (exn_cls e) c.

(** [except (c1, c2, ...)]: does the clause catch [e]? *)
Definition caught_by (e : exn) (classes : list exn_class) : bool :=
  existsb (isinstance e) classes.
Arguments caught_by : simpl never.

Inductive result (A : Type) : Type :=
| Ok (a : A)
| Raise (e : exn).
Arguments Ok {A} a.
Arguments Raise {A} e.

Definition is_ok {A} (r : result A) : bool :=
  match r with Ok _ => true | Raise _ => false end.

(** *** Strings *)

Definition chr (n : nat) : string := String (ascii_of_nat n) EmptyString.

(** The line feed, written [\n] in the source, and the double quote. *)
Definition LF : string := chr 10.
Definition DQUOTE : string := chr 34.

Definition byte (c : ascii) : N := N_of_ascii c.

Definition between (lo hi n : N) : bool := ((lo <=? n) && (n <=? hi))%N.

(** One-byte white space of [str.isspace]: U+0009..U+000D, U+001C..U+0020. *)
Definition ascii_space (c : ascii) : bool :=
  between 9 13 (byte c) || between 28 32 (byte c).

(** The white-space characters above U+007F, by their UTF-8 bytes:
    U+0085, U+00A0; U+1680, U+2000..U+200A, U+2028, U+2029, U+202F, U+205F,
    U+3000. *)
Definition space2 (b1 b2 : N) : bool :=
  ((b1 =? 194) && ((b2 =? 133) || (b2 =? 160)))%N.

Definition space3 (b1 b2 b3 : N) : bool :=
  (((b1 =? 225) && (b2 =? 154) && (b3 =? 128))
   || ((b1 =? 226) && (b2 =? 128)
       && (between 128 138 b3 || (b3 =? 168) || (b3 =? 169) || (b3 =? 175)))
   || ((b1 =? 226) && (b2 =? 129) && (b3 =? 159))
   || ((b1 =? 227) && (b2 =? 128) && (b3 =? 128)))%N.

(** Number of bytes of the white-space character at the head of the byte
    list, 0 when there is none. With [rev = true] the list is a reversed
    string, so the character's bytes come last byte first. *)
Definition space_width (rev : bool) (bs : list ascii) : nat :=
  match bs with
  | [] => 0%nat
  | a :: r =>
      if ascii_space a then 1%nat
      else match r with
           | [] => 0%nat
           | b :: r' =>
               if (if rev then space2 (byte b) (byte a)
                   else space2 (byte a) (byte b)) then 2%nat
               else match r' with
                    | [] => 0%nat
                    | c :: _ =>
                        if (if rev then space3 (byte c) (byte b) (byte a)
                            else space3 (byte a) (byte b) (byte c))
                        then 3%nat else 0%nat
                    end
           end
  end.

Fixpoint strip_head (fuel : nat) (rev : bool) (bs : list ascii) : list ascii :=
  match fuel with
  | O => bs
  | S fuel' =>
      match space_width rev bs with
      | O => bs
      | w => strip_head fuel' rev (drop w bs)
      end
  end.

Definition lstrip_bytes (bs : list ascii) : list ascii :=
  strip_head (length bs) false bs.

Definition rstrip_bytes (bs : list ascii) : list ascii :=
  reverse (strip_head (length bs) true (reverse bs)).

(** [s.strip()] *)
Definition strip (s : string) : string :=
  string_of_list_ascii (rstrip_bytes (lstrip_bytes (list_ascii_of_string s))).

(** [a or b] on strings: the first operand unless it is empty. *)
Definition str_or (a b : string) : string :=
  match a with EmptyString => b | _ => a end.

(** *** Values *)

(** A float, kept as the literal or constant it was read from: the double
    nearest to [(-1)^neg * m * 10^e]. *)
Inductive pyfloat : Type :=
| FNaN
| FInf (neg : bool)
| FDec (neg : bool) (m : N) (e : Z).

Inductive pyval : Type :=
| PyNone
| PyBool (b : bool)
| PyInt (n : Z)
| PyFloat (f : pyfloat)
| PyStr (s : string)
| PyList (l : list pyval)
| PyDict (d : gmap string pyval).

(** A decimal rounds to the double 0.0 exactly when it is at most half the
    least subnormal, 2^-1075 (the tie goes to the even neighbour, zero). *)
Definition float_is_zero (f : pyfloat) : bool :=
  match f with
  | FNaN | FInf _ => false
  | FDec _ m e =>
      if (m =? 0)%N then true
      else if 0 <=? e then false
      else Z.of_N m * 2 ^ 1075 <=? 10 ^ (- e)
  end.

(** Truth value testing ([if v], [a if v else b]). *)
Definition truthy (v : pyval) : bool :=
  match v with
  | PyNone => false
  | PyBool b => b
  | PyInt n => negb (n =? 0)
  | PyFloat f => negb (float_is_zero f)
  | PyStr s => negb (bool_decide (s = EmptyString))
  | PyList l => negb (bool_decide (length l = 0%nat))
  | PyDict d => negb (bool_decide (size d = 0%nat))
  end.

(** [not os.environ.get(k)]: unset, or set to the empty string. *)
Definition str_truthy (o : option string) : bool :=
  match o with
  | Some (String _ _) => true
  | _ => false
  end.

End Py.
Import Py.

(** ** The [json] module: a reference decoder

    [json.loads] belongs to Python's library, not to the program. The
    controller below takes the decoder as a parameter and its theorems
    hold for every decoder. [Json.loads] is a reference decoder that
    follows CPython's scanner (grammar, accepted constants, duplicate keys,
    strictness about control characters), used to run the controller on
    concrete process output. Error positions are left out of the messages,
    and the interpreter's limits on nesting depth and on the number of
    digits of an integer are not modelled. *)

Module Json.

Definition decode_error (msg : string) : exn := Exn JSONDecodeError msg.

Definition is_ws (c : ascii) : bool :=
  let n := byte c in ((n =? 32) || (n =? 9) || (n =? 10) || (n =? 13))%N.

Fixpoint skip_ws (s : string) : string :=
  match s with
  | String c r => if is_ws c then skip_ws r else s
  | EmptyString => s
  end.

Definition is_digit (c : ascii) : bool := between 48 57 (byte c).

Definition digit_value (c : ascii) : N := (byte c - 48)%N.

Definition hex_value (c : ascii) : option N :=
  let n := byte c in
  if between 48 57 n then Some (n - 48)%N
  else if between 97 102 n then Some (n - 87)%N
  else if between 65 70 n then Some (n - 55)%N
  else None.

(** The longest run of digits at the head of [s], and what follows. *)
Fixpoint span_digits (s : string) : list ascii * string :=
  match s with
  | String c r =>
      if is_digit c then let '(ds, r') := span_digits r in (c :: ds, r')
      else ([], s)
  | EmptyString => ([], s)
  end.

Definition digits_value (ds : list ascii) : N :=
  fold_left (fun acc c => (10 * acc + digit_value c)%N) ds 0%N.

(** Four hexadecimal digits. *)
Definition hex4 (s : string) : option (N * string) :=
  match s with
  | String a (String b (String c (String d r))) =>
      match hex_value a, hex_value b, hex_value c, hex_value d with
      | Some x, Some y, Some z, Some w =>
          Some (((x * 16 + y) * 16 + z) * 16 + w, r)%N
      | _, _, _, _ => None
      end
  | _ => None
  end.

Definition byte_chr (n : N) : string := String (ascii_of_N n) EmptyString.

(** UTF-8 encoding of a code point (a lone surrogate is written with the
    three-byte pattern as well). *)
Definition utf8 (cp : N) : string :=
  (if cp <? 128 then byte_chr cp
   else if cp <? 2048 then
     byte_chr (192 + cp / 64) +:+ byte_chr (128 + cp mod 64)
   else if cp <? 65536 then
     byte_chr (224 + cp / 4096) +:+ byte_chr (128 + (cp / 64) mod 64)
     +:+ byte_chr (128 + cp mod 64)
   else
     byte_chr (240 + cp / 262144) +:+ byte_chr (128 + (cp / 4096) mod 64)
     +:+ byte_chr (128 + (cp / 64) mod 64) +:+ byte_chr (128 + cp mod 64))%N.

Definition simple_escape (c : ascii) : option string :=
  let n := byte c in
  if (n =? 34)%N then Some (chr 34)
  else if (n =? 92)%N then Some (chr 92)
  else if (n =? 47)%N then Some (chr 47)
  else if (n =? 98)%N then Some (chr 8)
  else if (n =? 102)%N then Some (chr 12)
  else if (n =? 110)%N then Some (chr 10)
  else if (n =? 114)%N then Some (chr 13)
  else if (n =? 116)%N then Some (chr 9)
  else None.

(** After a [\uXXXX] that gave the high surrogate [hi]: a following
    [\uXXXX] low surrogate joins it, provided one more character follows
    the pair. *)
Definition join_surrogate (hi : N) (r : string) : result (N * string) :=
  if negb (between 55296 56319 hi) then Ok (hi, r)
  else
    match r with
    | String b (String u r1) =>
        if ((byte b =? 92) && (byte u =? 117)
            && (Nat.ltb 4 (String.length r1)))%N
        then
          match hex4 r1 with
          | None => Raise (decode_error "Invalid \uXXXX escape")
          | Some (lo, r2) =>
              if between 56320 57343 lo
              then Ok ((65536 + (hi - 55296) * 1024 + (lo - 56320))%N, r2)
              else Ok (hi, r)
          end
        else Ok (hi, r)
    | _ => Ok (hi, r)
    end.

(** [scanstring], strict: [s] starts after the opening quote; [acc] is the
    text decoded so far. A [\uXXXX] escape needs its four digits and one
    more character after them. *)
Fixpoint scanstring (fuel : nat) (s : string) (acc : string)
  : result (string * string) :=
  match fuel with
  | O => Raise (Exn RecursionError "out of fuel")
  | S fuel' =>
      match s with
      | EmptyString => Raise (decode_error "Unterminated string starting at")
      | String c r =>
          let n := byte c in
          if (n =? 34)%N then Ok (acc, r)
          else if (n =? 92)%N then
            match r with
            | EmptyString =>
                Raise (decode_error "Unterminated string starting at")
            | String e r1 =>
                if (byte e =? 117)%N then
                  match (if Nat.ltb 4 (String.length r1) then hex4 r1
                         else None) with
                  | None => Raise (decode_error "Invalid \uXXXX escape")
                  | Some (cp, r2) =>
                      match join_surrogate cp r2 with
                      | Raise x => Raise x
                      | Ok (cp', r3) => scanstring fuel' r3 (acc +:+ utf8 cp')
                      end
                  end
                else
                  match simple_escape e with
                  | None => Raise (decode_error "Invalid \escape")
                  | Some t => scanstring fuel' r1 (acc +:+ t)
                  end
            end
          else if (n <=? 31)%N then
            Raise (decode_error "Invalid control character at")
          else scanstring fuel' r (acc +:+ String c EmptyString)
      end
  end.

Definition has_prefix (p s : string) : option string :=
  if String.prefix p s
  then Some (String.substring (String.length p)
               (String.length s - String.length p) s)
  else None.

(** The number at the head of [s], if any: an optional minus sign; a
    single zero, or a non-zero digit and the digits after it; optionally a
    dot and at least one digit; optionally [e] or [E], a sign, and at least
    one digit. A fraction or an exponent makes it a float. *)
Definition match_number (s : string) : option (pyval * string) :=
  let '(neg, s1) :=
    match s with
    | String c r => if (byte c =? 45)%N then (true, r) else (false, s)
    | EmptyString => (false, s)
    end in
  let int_part : option (list ascii * string) :=
    match s1 with
    | String c r =>
        if (byte c =? 48)%N then Some ([c], r)
        else if is_digit c then Some (span_digits s1)
        else None
    | EmptyString => None
    end in
  match int_part with
  | None => None
  | Some (ids, s2) =>
      let '(fds, s3) :=
        match s2 with
        | String c r =>
            if (byte c =? 46)%N then
              match span_digits r with
              | ([], _) => ([], s2)
              | (ds, r') => (ds, r')
              end
            else ([], s2)
        | EmptyString => ([], s2)
        end in
      let '(ex, s4) :=
        match s3 with
        | String c r =>
            if ((byte c =? 101) || (byte c =? 69))%N then
              let '(eneg, r1) :=
                match r with
                | String sg r' =>
                    if (byte sg =? 45)%N then (true, r')
                    else if (byte sg =? 43)%N then (false, r')
                    else (false, r)
                | EmptyString => (false, r)
                end in
              match span_digits r1 with
              | ([], _) => (None, s3)
              | (ds, r2) =>
                  let v := Z.of_N (digits_value ds) in
                  (Some (if eneg then - v else v), r2)
              end
            else (None, s3)
        | EmptyString => (None, s3)
        end in
      match fds, ex with
      | [], None =>
          let v := Z.of_N (digits_value ids) in
          Some (PyInt (if neg then - v else v), s4)
      | _, _ =>
          let e := match ex with Some x => x | None => 0 end in
          Some (PyFloat (FDec neg (digits_value (ids ++ fds))
                           (e - Z.of_nat (length fds))), s4)
      end
  end.

Definition expecting_value : exn := decode_error "Expecting value".

(** [scan_once]: the value at the head of [s] and the rest of the input.
    [parse_array] and [parse_object] stand at an element and at a member's
    opening quote. Entering an array or an object takes two units of fuel
    and one character, so twice the length of the input is enough fuel. *)
Fixpoint scan_once (fuel : nat) (s : string) : result (pyval * string) :=
  match fuel with
  | O => Raise (Exn RecursionError "out of fuel")
  | S fuel' =>
      match s with
      | EmptyString => Raise expecting_value
      | String c r =>
          let n := byte c in
          if (n =? 34)%N then
            match scanstring (S (String.length r)) r EmptyString with
            | Raise x => Raise x
            | Ok (t, r') => Ok (PyStr t, r')
            end
          else if (n =? 123)%N then
            match skip_ws r with
            | String c' r' =>
                if (byte c' =? 125)%N then Ok (PyDict ∅, r')
                else parse_object fuel' (skip_ws r) ∅
            | EmptyString => parse_object fuel' EmptyString ∅
            end
          else if (n =? 91)%N then
            match skip_ws r with
            | String c' r' =>
                if (byte c' =? 93)%N then Ok (PyList [], r')
                else parse_array fuel' (skip_ws r) []
            | EmptyString => parse_array fuel' EmptyString []
            end
          else
            match has_prefix "null" s, has_prefix "true" s,
                  has_prefix "false" s with
            | Some r', _, _ => Ok (PyNone, r')
            | _, Some r', _ => Ok (PyBool true, r')
            | _, _, Some r' => Ok (PyBool false, r')
            | None, None, None =>
                match has_prefix "-Infinity" s with
                | Some r' => Ok (PyFloat (FInf true), r')
                | None =>
                    match match_number s with
                    | Some vr => Ok vr
                    | None =>
                        match has_prefix "NaN" s, has_prefix "Infinity" s with
                        | Some r', _ => Ok (PyFloat FNaN, r')
                        | _, Some r' => Ok (PyFloat (FInf false), r')
                        | None, None => Raise expecting_value
                        end
                    end
                end
            end
      end
  end
with parse_array (fuel : nat) (s : string) (acc : list pyval)
  : result (pyval * string) :=
  match fuel with
  | O => Raise (Exn RecursionError "out of fuel")
  | S fuel' =>
      match scan_once fuel' s with
      | Raise x => Raise x
      | Ok (v, r) =>
          match skip_ws r with
          | String c r' =>
              if (byte c =? 93)%N then Ok (PyList (acc ++ [v]), r')
              else if (byte c =? 44)%N
              then parse_array fuel' (skip_ws r') (acc ++ [v])
              else Raise (decode_error "Expecting ',' delimiter")
          | EmptyString => Raise (decode_error "Expecting ',' delimiter")
          end
      end
  end
with parse_object (fuel : nat) (s : string) (d : gmap string pyval)
  : result (pyval * string) :=
  match fuel with
  | O => Raise (Exn RecursionError "out of fuel")
  | S fuel' =>
      match s with
      | String q r =>
          if (byte q =? 34)%N then
            match scanstring (S (String.length r)) r EmptyString with
            | Raise x => Raise x
            | Ok (key, r1) =>
                match skip_ws r1 with
                | String c r2 =>
                    if (byte c =? 58)%N then
                      match scan_once fuel' (skip_ws r2) with
                      | Raise x => Raise x
                      | Ok (v, r3) =>
                          match skip_ws r3 with
                          | String c' r4 =>
                              if (byte c' =? 125)%N
                              then Ok (PyDict (<[key := v]> d), r4)
                              else if (byte c' =? 44)%N
                              then parse_object fuel' (skip_ws r4)
                                     (<[key := v]> d)
                              else Raise (decode_error
                                            "Expecting ',' delimiter")
                          | EmptyString =>
                              Raise (decode_error "Expecting ',' delimiter")
                          end
                      end
                    else Raise (decode_error "Expecting ':' delimiter")
                | EmptyString => Raise (decode_error "Expecting ':' delimiter")
                end
            end
          else Raise (decode_error
                 "Expecting property name enclosed in double quotes")
      | EmptyString =>
          Raise (decode_error
                   "Expecting property name enclosed in double quotes")
      end
  end.

(** [json.loads(s)] for a [str]: a byte order mark is refused, white space
    may surround the one value, anything after it is an error. *)
Definition loads (s : string) : result pyval :=
  if String.prefix (utf8 65279) s
  then Raise (decode_error "Unexpected UTF-8 BOM (decode using utf-8-sig)")
  else
    match scan_once (2 * String.length s + 2) (skip_ws s) with
    | Raise x => Raise x
    | Ok (v, r) =>
        match skip_ws r with
        | EmptyString => Ok v
        | String _ _ => Raise (decode_error "Extra data")
        end
    end.

End Json.


(** ** Gtk, GLib and the outside world *)

Module Gtk.

Record MenuItem : Type := { label : string; sensitive : bool }.

(** A new [Gtk.MenuItem(label=...)] is sensitive. *)
Definition new_MenuItem (l : string) : MenuItem :=
  {| label := l; sensitive := true |}.

Definition set_label (l : string) (it : MenuItem) : MenuItem :=
  {| label := l; sensitive := sensitive it |}.

Definition set_sensitive (b : bool) (it : MenuItem) : MenuItem :=
  {| label := label it; sensitive := b |}.

Inductive MessageType : Type := WARNING | ERROR.

Inductive ButtonsType : Type := BUTTONS_OK | BUTTONS_OK_CANCEL.

(** What [dialog.run()] can return for these dialogs. *)
Inductive ResponseType : Type :=
| RESPONSE_NONE
| RESPONSE_DELETE_EVENT
| RESPONSE_OK
| RESPONSE_CANCEL.

#[global] Instance ResponseType_eq_dec : EqDecision ResponseType.
Proof. solve_decision. Defined.

End Gtk.

(** [subprocess.CompletedProcess] with [capture_output=True, text=True]. *)
Record CompletedProcess : Type :=
  { returncode : Z; stdout : string; stderr : string }.

(** The methods of the controller that are handed to GLib as callbacks. *)
Inductive callback : Type :=
| CB_poll_status
| CB_poll_status_once
| CB_show_error (message : string).

(** A source attached to the main context. GLib calls the callback of a
    timeout source every [interval_ms] milliseconds and that of an idle
    source whenever the loop is idle, in both cases until the callback
    returns [False]. *)
Inductive source : Type :=
| TimeoutSource (interval_ms : Z) (cb : callback)
| IdleSource (cb : callback).

#[global] Instance callback_eq_dec : EqDecision callback.
Proof. solve_decision. Defined.

#[global] Instance source_eq_dec : EqDecision source.
Proof. solve_decision. Defined.

(** The calls the program makes to its surroundings, in the order made. *)
Inductive event : Type :=
| SubprocessRun (argv : list string) (timeout : Z)
| SubprocessPopen (argv : list string)
| MessageDialog (message_type : Gtk.MessageType) (buttons : Gtk.ButtonsType)
    (text secondary_text : string)
| PrintStderr (line : string).

(** The tray back end chosen at import time ([USE_APPINDICATOR]) with the
    icon it shows: [self.indicator] or [self.status_icon]. *)
Inductive backend : Type :=
| AppIndicator (icon : string)
| StatusIcon (icon : string).

(** The attributes of the [CameraRelaySystray] object. The three menu
    items exist once [_build_menu] has run ([hasattr]). *)
Record CameraRelaySystray : Type := {
  running : pyval;
  persistent : pyval;
  tray : backend;
  item_toggle : option Gtk.MenuItem;
  item_persistent : option Gtk.MenuItem;
  item_status : option Gtk.MenuItem
}.

Record World : Type := {
  self : CameraRelaySystray;
  sources : list source;
  workers : list string;
  calls : list event
}.

(** *** The monad of methods: state that survives an exception *)

Definition M (A : Type) : Type := World → result A * World.

#[global] Instance M_ret : MRet M := λ A a w, (Ok a, w).

#[global] Instance M_bind : MBind M := λ A B f m w,
  match m w with
  | (Ok a, w') => f a w'
  | (Raise e, w') => (Raise e, w')
  end.

Definition raise {A} (e : exn) : M A := λ w, (Raise e, w).

Definition lift {A} (r : result A) : M A := λ w, (r, w).

Definition get_self : M CameraRelaySystray := λ w, (Ok (self w), w).

Definition modify_self (f : CameraRelaySystray → CameraRelaySystray) : M unit :=
  λ w, (Ok tt, {| self := f (self w); sources := sources w;
                  workers := workers w; calls := calls w |}).

Definition emit (ev : event) : M unit :=
  λ w, (Ok tt, {| self := self w; sources := sources w;
                  workers := workers w; calls := calls w ++ [ev] |}).

Definition attach (src : source) : M unit :=
  λ w, (Ok tt, {| self := self w; sources := sources w ++ [src];
                  workers := workers w; calls := calls w |}).

Definition spawn_worker (action : string) : M unit :=
  λ w, (Ok tt, {| self := self w; sources := sources w;
                  workers := workers w ++ [action]; calls := calls w |}).

(** [try: body / except classes_1: h_1 / except classes_2 as e: h_2 ...]:
    the first clause that matches handles the exception. *)
Fixpoint handle {A} (e : exn) (clauses : list (list exn_class * (exn → M A)))
  : M A :=
  match clauses with
  | [] => raise e
  | (classes, h) :: rest =>
      if caught_by e classes then h e else handle e rest
  end.

Definition try_except {A} (body : M A)
    (clauses : list (list exn_class * (exn → M A))) : M A :=
  λ w, match body w with
       | (Ok a, w') => (Ok a, w')
       | (Raise e, w') => handle e clauses w'
       end.

(** *** Library calls *)

(** [subprocess.run(argv, capture_output=True, text=True, timeout=t)];
    [answer] is what the call does. *)
Definition subprocess_run (argv : list string) (timeout : Z)
    (answer : result CompletedProcess) : M CompletedProcess :=
  emit (SubprocessRun argv timeout) ;; lift answer.

(** What becomes of a child process that was started. *)
Inductive child_fate : Type :=
| ExitsWith (status : Z)
| NeverExits.

(** [subprocess.Popen(argv)]: starts the child and returns at once.
    [answer] says whether the child could be started and, if so, how it
    will end; the [Popen] object is dropped by every caller. *)
Definition subprocess_Popen (argv : list string) (answer : result child_fate)
  : M unit :=
  emit (SubprocessPopen argv) ;; _ ← lift answer; mret tt.

Definition GLib_idle_add (cb : callback) : M unit := attach (IdleSource cb).

Definition GLib_timeout_add (ms : Z) (cb : callback) : M unit :=
  attach (TimeoutSource ms cb).

Definition GLib_timeout_add_seconds (s : Z) (cb : callback) : M unit :=
  attach (TimeoutSource (1000 * s) cb).

(** [Gtk.MessageDialog(...)], [format_secondary_text], [run()],
    [destroy()]: the dialog is shown and the user's [response] returned. *)
Definition run_dialog (mt : Gtk.MessageType) (bt : Gtk.ButtonsType)
    (text secondary : string) (response : Gtk.ResponseType)
  : M Gtk.ResponseType :=
  emit (MessageDialog mt bt text secondary) ;; mret response.

(** The type name in the message of an [AttributeError]. *)
Definition type_name (v : pyval) : string :=
  match v with
  | PyNone => "NoneType"
  | PyBool _ => "bool"
  | PyInt _ => "int"
  | PyFloat _ => "float"
  | PyStr _ => "str"
  | PyList _ => "list"
  | PyDict _ => "dict"
  end.

(** [v.get(key, default)]: only a dict has the method. *)
Definition py_get (v : pyval) (key : string) (default : pyval) : result pyval :=
  match v with
  | PyDict d => Ok (match d !! key with Some x => x | None => default end)
  | _ => Raise (Exn AttributeError
                  ("'" +:+ type_name v +:+ "' object has no attribute 'get'"))
  end.

(** ** The program *)

(** *** Module level, lines 10-24: display check and single-instance lock *)

(** How the import of the module ends. *)
Inductive import_end : Type :=
| SysExit (status : Z)
| Traceback (e : exn)
| Imported.

(** [os.path.join(a, b)] on POSIX. *)
Definition os_path_join (a b : string) : string :=
  if String.prefix "/" b then b
  else if bool_decide (a = EmptyString) || String.prefix "/" (String.rev a)
  then a +:+ b
  else a +:+ "/" +:+ b.

Definition LOCK_FILE (environ : gmap string string) : string :=
  os_path_join (default "/tmp" (environ !! "XDG_RUNTIME_DIR"))
    "camera-relay-systray.lock".

(** [environ] is [os.environ]; [open_answer] is what
    [open(LOCK_FILE, "w")] does and [flock_answer] what
    [fcntl.flock(_lock_fd, LOCK_EX | LOCK_NB)] does. The result is how the
    import ends and what was printed to standard error. *)
Definition main_module (environ : gmap string string)
    (open_answer flock_answer : result unit) : import_end * list string :=
  if negb (str_truthy (environ !! "DISPLAY"))
     && negb (str_truthy (environ !! "WAYLAND_DISPLAY"))
  then (SysExit 0, ["camera-relay-systray: No display detected, exiting."])
  else
    match open_answer with
    | Raise e => (Traceback e, [])
    | Ok _ =>
        match flock_answer with
        | Ok _ => (Imported, [])
        | Raise e =>
            if isinstance e OSError
            then (SysExit 0,
                  ["camera-relay-systray: Another instance is already running."])
            else (Traceback e, [])
        end
    end.

Definition RELAY_CMD : string := "/usr/local/bin/camera-relay".

(** seconds *)
Definition POLL_INTERVAL : Z := 5.

(** *** class CameraRelaySystray *)

Definition set_running (v : pyval) (s : CameraRelaySystray) : CameraRelaySystray :=
  {| running := v; persistent := persistent s; tray := tray s;
     item_toggle := item_toggle s; item_persistent := item_persistent s;
     item_status := item_status s |}.

Definition set_persistent (v : pyval) (s : CameraRelaySystray) : CameraRelaySystray :=
  {| running := running s; persistent := v; tray := tray s;
     item_toggle := item_toggle s; item_persistent := item_persistent s;
     item_status := item_status s |}.

(** [self.indicator.set_icon(icon)] or
    [self.status_icon.set_from_icon_name(icon)]. *)
Definition set_icon (icon : string) (s : CameraRelaySystray) : CameraRelaySystray :=
  {| running := running s; persistent := persistent s;
     tray := match tray s with
             | AppIndicator _ => AppIndicator icon
             | StatusIcon _ => StatusIcon icon
             end;
     item_toggle := item_toggle s; item_persistent := item_persistent s;
     item_status := item_status s |}.

(** [if hasattr(self, "item_..."): self.item_....f(...)] *)
Definition on_item_toggle (f : Gtk.MenuItem → Gtk.MenuItem)
    (s : CameraRelaySystray) : CameraRelaySystray :=
  {| running := running s; persistent := persistent s; tray := tray s;
     item_toggle := f <$> item_toggle s; item_persistent := item_persistent s;
     item_status := item_status s |}.

Definition on_item_persistent (f : Gtk.MenuItem → Gtk.MenuItem)
    (s : CameraRelaySystray) : CameraRelaySystray :=
  {| running := running s; persistent := persistent s; tray := tray s;
     item_toggle := item_toggle s; item_persistent := f <$> item_persistent s;
     item_status := item_status s |}.

Definition on_item_status (f : Gtk.MenuItem → Gtk.MenuItem)
    (s : CameraRelaySystray) : CameraRelaySystray :=
  {| running := running s; persistent := persistent s; tray := tray s;
     item_toggle := item_toggle s; item_persistent := item_persistent s;
     item_status := f <$> item_status s |}.

(** Lines 83-109. The menu object, its separators and the Quit item are
    not attributes of [self] and are left out. *)
Definition _build_menu : M unit :=
  modify_self (λ s,
    {| running := running s; persistent := persistent s; tray := tray s;
       item_toggle := Some (Gtk.new_MenuItem "Start Relay");
       item_persistent := Some (Gtk.new_MenuItem "Enable Persistent Mode");
       item_status :=
         Some (Gtk.set_sensitive false
                 (Gtk.new_MenuItem "Status: checking...")) |}).

(** Lines 111-113. *)
Definition _on_status_icon_popup : M unit := _build_menu.

(** The literal of line 125. *)
Definition default_status : pyval :=
  PyDict {[ "running" := PyBool false; "persistent" := PyBool false;
            "camera" := PyStr EmptyString; "device" := PyStr EmptyString ]}.

Section Controller.

(** [json.loads] *)
Variable json_loads : string → result pyval.

(** Lines 115-125. *)
Definition _get_status (answer : result CompletedProcess) : M pyval :=
  try_except
    (result ← subprocess_run [RELAY_CMD; "status"; "--json"] 5 answer;
     lift (json_loads (stdout result)))
    [([TimeoutExpired; JSONDecodeError; FileNotFoundError],
      λ _, mret default_status)].

(** Lines 127-155. *)
Definition _poll_status (answer : result CompletedProcess) : M bool :=
  status ← _get_status answer;
  r ← lift (py_get status "running" (PyBool false));
  modify_self (set_running r);;
  p ← lift (py_get status "persistent" (PyBool false));
  modify_self (set_persistent p);;
  s ← get_self;
  modify_self (on_item_toggle
    (Gtk.set_label (if truthy (running s) then "Stop Relay" else "Start Relay")));;
  modify_self (on_item_persistent
    (Gtk.set_label (if truthy (persistent s) then "Disable Persistent Mode"
                    else "Enable Persistent Mode")));;
  (let state := if truthy (running s) then "RUNNING" else "STOPPED" in
   let persist := if truthy (persistent s) then " (persistent)" else "" in
   modify_self (on_item_status
     (Gtk.set_label ("Status: " +:+ state +:+ persist))));;
  (let icon := if truthy (running s) then "camera-video-symbolic"
               else "camera-disabled-symbolic" in
   modify_self (set_icon icon));;
  mret true.

(** Lines 157-162 and 182: the body of [_on_toggle] up to the start of the
    worker thread. *)
Definition _on_toggle : M unit :=
  s ← get_self;
  let action := if truthy (running s) then "stop" else "start" in
  modify_self (on_item_toggle
    (λ it, Gtk.set_sensitive false
             (Gtk.set_label (if truthy (running s) then "Stopping..."
                             else "Starting...") it)));;
  spawn_worker action.

(** Lines 164-180: the closure run by the worker thread, with the [action]
    it captured. It touches the world through [subprocess.run] and
    [GLib.idle_add] only. *)
Definition _run_action (action : string) (answer : result CompletedProcess)
  : M unit :=
  try_except
    (result ← subprocess_run [RELAY_CMD; action] 15 answer;
     if negb (returncode result =? 0) then
       let error := str_or (strip (stderr result))
                      (str_or (strip (stdout result)) "Unknown error") in
       GLib_idle_add
         (CB_show_error ("Failed to " +:+ action +:+ " relay:" +:+ LF +:+ LF
                         +:+ error))
     else mret tt)
    [([TimeoutExpired],
      λ _, GLib_idle_add
             (CB_show_error ("Timed out trying to " +:+ action +:+ " relay")));
     ([Exception],
      λ e, GLib_idle_add (CB_show_error ("Error: " +:+ exn_str e)))];;
  GLib_idle_add CB_poll_status_once.

(** Lines 184-190. *)
Definition _poll_status_once (answer : result CompletedProcess) : M bool :=
  _poll_status answer;;
  modify_self (on_item_toggle (Gtk.set_sensitive true));;
  mret false.

(** Lines 192-201. *)
Definition _show_error (message : string) : M bool :=
  emit (MessageDialog Gtk.ERROR Gtk.BUTTONS_OK "Camera Relay Error" message);;
  mret false.

Definition persistent_warning_text : string :=
  "This will keep the camera relay running at all times after login."
  +:+ LF +:+ LF
  +:+ "Battery impact: ~2-3% extra per charge cycle" +:+ LF
  +:+ "CPU usage: ~2-3% while active" +:+ LF +:+ LF
  +:+ "The relay will auto-start on every login and run continuously "
  +:+ "in the background. You can disable this later from this menu "
  +:+ "or by running:" +:+ LF +:+ LF
  +:+ "  camera-relay disable-persistent".

(** Lines 210-232. *)
Definition _show_persistent_warning (response : Gtk.ResponseType)
    (popen_answer : result child_fate) : M unit :=
  response ← run_dialog Gtk.WARNING Gtk.BUTTONS_OK_CANCEL
               "Enable Persistent Mode?" persistent_warning_text response;
  if bool_decide (response = Gtk.RESPONSE_OK) then
    subprocess_Popen [RELAY_CMD; "enable-persistent"; "--yes"] popen_answer;;
    GLib_timeout_add 1000 CB_poll_status
  else mret tt.

(** Lines 203-208. *)
Definition _on_persistent_toggle (response : Gtk.ResponseType)
    (popen_answer : result child_fate) : M unit :=
  s ← get_self;
  if truthy (persistent s) then
    subprocess_Popen [RELAY_CMD; "disable-persistent"] popen_answer;;
    GLib_timeout_add 1000 CB_poll_status
  else _show_persistent_warning response popen_answer.

(** Lines 50-81. [USE_APPINDICATOR] is the flag computed at import. *)
Definition __init__ (USE_APPINDICATOR : bool)
    (answer : result CompletedProcess) : M unit :=
  modify_self (set_running (PyBool false));;
  modify_self (set_persistent (PyBool false));;
  (if USE_APPINDICATOR then _build_menu
   else
     emit (PrintStderr
       ("camera-relay-systray: AppIndicator3 not available. "
        +:+ "Install gnome-shell-extension-appindicator (GNOME) or "
        +:+ "libappindicator-gtk3 (KDE/other)."));;
     emit (PrintStderr
       "camera-relay-systray: Falling back to Gtk.StatusIcon."));;
  _poll_status answer;;
  GLib_timeout_add_seconds POLL_INTERVAL CB_poll_status.

(** The object as [CameraRelaySystray()] finds it, before [__init__] has
    set an attribute, and the world around it. *)
Definition new_world (USE_APPINDICATOR : bool) : World :=
  {| self := {| running := PyNone; persistent := PyNone;
                tray := if USE_APPINDICATOR
                        then AppIndicator "camera-video-symbolic"
                        else StatusIcon "camera-video-symbolic";
                item_toggle := None; item_persistent := None;
                item_status := None |};
     sources := []; workers := []; calls := [] |}.

(** *** The main loop *)

Definition run_callback (cb : callback) (answer : result CompletedProcess)
  : M bool :=
  match cb with
  | CB_poll_status => _poll_status answer
  | CB_poll_status_once => _poll_status_once answer
  | CB_show_error message => _show_error message
  end.

Definition source_callback (src : source) : callback :=
  match src with TimeoutSource _ cb | IdleSource cb => cb end.

Definition detach (i : nat) (w : World) : World :=
  {| self := self w; sources := delete i (sources w);
     workers := workers w; calls := calls w |}.

(** One dispatch of the [i]-th attached source: its callback runs, and the
    source stays attached only if the callback returned [True] (a callback
    that raised has its traceback printed and counts as [False]).
    [answer] is what the status query does if the callback makes one. *)
Definition dispatch (i : nat) (answer : result CompletedProcess) (w : World)
  : World :=
  match sources w !! i with
  | None => w
  | Some src =>
      match run_callback (source_callback src) answer w with
      | (Ok true, w') => w'
      | (_, w') => detach i w'
      end
  end.

(** A signal handler runs to its end or to an exception, which PyGObject
    prints; either way the main loop goes on with the world it left. *)
Definition emit_signal (handler : M unit) (w : World) : World :=
  (handler w).2.

(** The [i]-th worker thread runs [_run_action] and ends. The thread
    shares nothing with the main loop but the sources it attaches, so its
    run is taken as one step, at the moment it ends. *)
Definition worker_finish (i : nat) (answer : result CompletedProcess)
    (w : World) : World :=
  match workers w !! i with
  | None => w
  | Some action =>
      (_run_action action answer
         {| self := self w; sources := sources w;
            workers := delete i (workers w); calls := calls w |}).2
  end.

(** What can happen next while [Gtk.main()] runs: the user activates the
    toggle item (Gtk delivers no activation to an insensitive item) or the
    persistent-mode item and answers the dialog it may show, the user
    opens the pop-up menu of the status icon, a worker thread ends, or the
    loop dispatches an attached source. *)
Inductive happening : Type :=
| ActivateToggle
| ActivatePersistent (response : Gtk.ResponseType)
    (popen_answer : result child_fate)
| PopupMenu
| WorkerEnds (i : nat) (answer : result CompletedProcess)
| Dispatch (i : nat) (answer : result CompletedProcess).

Definition step (h : happening) (w : World) : World :=
  match h with
  | ActivateToggle =>
      match item_toggle (self w) with
      | Some it => if Gtk.sensitive it then emit_signal _on_toggle w else w
      | None => w
      end
  | ActivatePersistent response popen_answer =>
      match item_persistent (self w) with
      | Some _ => emit_signal (_on_persistent_toggle response popen_answer) w
      | None => w
      end
  | PopupMenu =>
      match tray (self w) with
      | StatusIcon _ => emit_signal _on_status_icon_popup w
      | AppIndicator _ => w
      end
  | WorkerEnds i answer => worker_finish i answer w
  | Dispatch i answer => dispatch i answer w
  end.

(** The world after a sequence of happenings, first one first. *)
Definition run (hs : list happening) (w : World) : World :=
  foldl (λ w h, step h w) w hs.

(** *** Vocabulary of the statements *)

Definition status_query : event :=
  SubprocessRun [RELAY_CMD; "status"; "--json"] 5.

(** The world after one more call to the outside. *)
Definition logged (ev : event) (w : World) : World :=
  {| self := self w; sources := sources w; workers := workers w;
     calls := calls w ++ [ev] |}.

Definition with_self (s : CameraRelaySystray) (w : World) : World :=
  {| self := s; sources := sources w; workers := workers w;
     calls := calls w |}.

Definition attached (srcs : list source) (w : World) : World :=
  {| self := self w; sources := sources w ++ srcs; workers := workers w;
     calls := calls w |}.

(** What the status is read from: the decoded standard output, or the
    exception of the query. *)
Definition decoded (answer : result CompletedProcess) : result pyval :=
  match answer with
  | Ok p => json_loads (stdout p)
  | Raise e => Raise e
  end.

(** The three ways a status query fails that [_get_status] names: the
    query timed out, the relay binary is missing, or the query returned
    and its standard output is not JSON. *)
Definition query_failed (answer : result CompletedProcess) : Prop :=
  match answer with
  | Raise e =>
      isinstance e TimeoutExpired = true ∨ isinstance e FileNotFoundError = true
  | Ok p =>
      ∃ e, json_loads (stdout p) = Raise e ∧ isinstance e JSONDecodeError = true
  end.

(** What [_poll_status] writes into [self] from the two values it read. *)
Definition show_status (r p : pyval) (s : CameraRelaySystray)
  : CameraRelaySystray :=
  set_icon (if truthy r then "camera-video-symbolic"
            else "camera-disabled-symbolic")
    (on_item_status
       (Gtk.set_label
          ("Status: " +:+ (if truthy r then "RUNNING" else "STOPPED")
           +:+ (if truthy p then " (persistent)" else "")))
       (on_item_persistent
          (Gtk.set_label (if truthy p then "Disable Persistent Mode"
                          else "Enable Persistent Mode"))
          (on_item_toggle
             (Gtk.set_label (if truthy r then "Stop Relay" else "Start Relay"))
             (set_persistent p (set_running r s))))).

(** The calls of a log that start or wait for an external process. *)
Definition invocations (evs : list event) : list (list string) :=
  omap (λ ev, match ev with
              | SubprocessRun argv _ | SubprocessPopen argv => Some argv
              | _ => None
              end) evs.

Definition is_dialog (ev : event) : bool :=
  match ev with MessageDialog _ _ _ _ => true | _ => false end.

Definition dialogs (evs : list event) : list event := List.filter is_dialog evs.

(** The status query yields a dict: its output decodes to a JSON object,
    or it failed in one of the three ways that give the default status. *)
Definition status_is_dict (answer : result CompletedProcess) : Prop :=
  match decoded answer with
  | Ok (PyDict _) => True
  | Ok _ => False
  | Raise e =>
      caught_by e [TimeoutExpired; JSONDecodeError; FileNotFoundError] = true
  end.

Definition is_appindicator (s : CameraRelaySystray) : bool :=
  match tray s with AppIndicator _ => true | StatusIcon _ => false end.

(** The toggle item is insensitive and nothing is left that would make it
    sensitive: no worker is running, no one-shot poll is queued, and the
    menu is the indicator's, which is built once. *)
Definition toggle_stuck (w : World) : Prop :=
  Gtk.sensitive <$> item_toggle (self w) = Some false
  ∧ workers w = []
  ∧ Forall (λ src, source_callback src ≠ CB_poll_status_once) (sources w)
  ∧ is_appindicator (self w) = true.

End Controller.

(** ** Sample runs *)

Definition quoted (s : string) : string := DQUOTE +:+ s +:+ DQUOTE.

Definition completed (rc : Z) (out err : string) : result CompletedProcess :=
  Ok {| returncode := rc; stdout := out; stderr := err |}.

(** The status output [{"running": true, "persistent": true}]. *)
Definition json_running_persistent : string :=
  "{" +:+ quoted "running" +:+ ": true, " +:+ quoted "persistent"
  +:+ ": true}".

(** The status output [{"running": true, "persistent": false}]. *)
Definition json_running : string :=
  "{" +:+ quoted "running" +:+ ": true, " +:+ quoted "persistent"
  +:+ ": false}".

(** The status output [{"running": false, "persistent": false}]. *)
Definition json_stopped : string :=
  "{" +:+ quoted "running" +:+ ": false, " +:+ quoted "persistent"
  +:+ ": false}".

(** The indicator right after start-up on a desktop with AppIndicator3,
    the relay stopped and not persistent. *)
Definition started : World :=
  (__init__ Json.loads true (completed 0 json_stopped "") (new_world true)).2.

(** The user clicks "Start Relay"; [camera-relay start] exits with 0; the
    one-shot poll queued by the worker then finds that
    [camera-relay status --json] printed the JSON array [[]]. *)
Definition start_then_odd_status : World :=
  run Json.loads
    [ActivateToggle;
     WorkerEnds 0 (completed 0 "" "");
     Dispatch 1 (completed 0 "[]" "")]
    started.

(** The user activates "Enable Persistent Mode" and confirms the dialog;
    the child process starts. *)
Definition persistent_confirmed : World :=
  run Json.loads [ActivatePersistent Gtk.RESPONSE_OK (Ok (ExitsWith 0))]
    started.

(** ** Further vocabulary *)

(** The icon the tray shows. *)
Definition tray_icon (s : CameraRelaySystray) : string :=
  match tray s with AppIndicator icon | StatusIcon icon => icon end.

(** The one-shot polls that are queued. *)
Definition is_once (src : source) : bool :=
  bool_decide (source_callback src = CB_poll_status_once).

Definition pending_once (w : World) : nat :=
  length (List.filter is_once (sources w)).

(** Start/stop actions under way: a worker that runs one, or a one-shot
    poll queued by a worker that has ended. *)
Definition in_flight (w : World) : nat :=
  (length (workers w) + pending_once w)%nat.

(** The calls a run of the indicator can make: the status query with its
    timeout of 5 seconds, start and stop with 15, the two persistent-mode
    commands, the error dialog and the confirmation dialog. *)
Definition expected_call (ev : event) : Prop :=
  match ev with
  | SubprocessRun argv timeout =>
      (argv = [RELAY_CMD; "status"; "--json"] ∧ timeout = 5)
      ∨ ((argv = [RELAY_CMD; "start"] ∨ argv = [RELAY_CMD; "stop"])
         ∧ timeout = 15)
  | SubprocessPopen argv =>
      argv = [RELAY_CMD; "enable-persistent"; "--yes"]
      ∨ argv = [RELAY_CMD; "disable-persistent"]
  | MessageDialog Gtk.ERROR Gtk.BUTTONS_OK text _ =>
      text = "Camera Relay Error"
  | MessageDialog Gtk.WARNING Gtk.BUTTONS_OK_CANCEL text secondary =>
      text = "Enable Persistent Mode?" ∧ secondary = persistent_warning_text
  | _ => False
  end.

(** The actions a worker can have been started for. *)
Definition known_action (action : string) : Prop :=
  action = "start" ∨ action = "stop".

(** The three forms of the message of an error dialog, all made by
    [_run_action]. *)
Definition action_error_message (message : string) : Prop :=
  (∃ action error, message = "Failed to " +:+ action +:+ " relay:" +:+ LF
                             +:+ LF +:+ error)
  ∨ (∃ action, message = "Timed out trying to " +:+ action +:+ " relay")
  ∨ (∃ text, message = "Error: " +:+ text).


(** With the indicator's menu, built once: the toggle item exists, and
    no action is under way while it is sensitive, at most one while it is
    not. *)
Definition one_at_a_time (w : World) : Prop :=
  is_appindicator (self w) = true
  ∧ ∃ it, item_toggle (self w) = Some it
          ∧ if Gtk.sensitive it then in_flight w = 0%nat
            else (in_flight w ≤ 1)%nat.

(** The indicator right after start-up on a desktop without an indicator
    library, the relay running. *)
Definition started_fallback : World :=
  (__init__ Json.loads false (completed 0 json_running "") (new_world false)).2.

(** * Properties *)

Section Properties.

Variable json_loads : string → result pyval.

Ltac run_M :=
  unfold _poll_status_once, _poll_status, _get_status, _run_action,
    _on_toggle, _on_persistent_toggle, _show_persistent_warning, _show_error,
    _build_menu, try_except, subprocess_run, subprocess_Popen, run_dialog,
    GLib_idle_add, GLib_timeout_add, GLib_timeout_add_seconds, spawn_worker,
    attach, emit, lift, raise, modify_self, get_self,
    mbind, M_bind, mret, M_ret in *;
  cbn [handle fst snd] in *.

(** ** The status poller *)

(** [_get_status] returns what was decoded, turns the three named
    exceptions into the default status, and lets any other one through. *)
Lemma _get_status_unfold answer w :
  _get_status json_loads answer w =
  match decoded json_loads answer with
  | Ok v => (Ok v, logged status_query w)
  | Raise e =>
      if caught_by e [TimeoutExpired; JSONDecodeError; FileNotFoundError]
      then (Ok default_status, logged status_query w)
      else (Raise e, logged status_query w)
  end.
Proof.
  run_M. unfold decoded, logged, status_query.
  destruct answer as [p|e]; cbn.
  - destruct (json_loads (stdout p)) as [v|e]; cbn; [reflexivity|].
    unfold raise. by destruct (caught_by e _).
  - unfold raise. by destruct (caught_by e _).
Qed.

Lemma query_failed_caught answer :
  query_failed json_loads answer →
  ∃ e, decoded json_loads answer = Raise e
       ∧ caught_by e [TimeoutExpired; JSONDecodeError; FileNotFoundError] = true.
Proof.
  unfold query_failed, decoded, caught_by.
  destruct answer as [p|e].
  - intros (e & -> & He). exists e. split; [done|]. cbn. rewrite He.
    by rewrite !orb_true_r.
  - intros [He|He]; exists e; (split; [done|]); cbn; rewrite He;
      by rewrite ?orb_true_r.
Qed.

Lemma _get_status_failed answer w :
  query_failed json_loads answer →
  _get_status json_loads answer w = (Ok default_status, logged status_query w).
Proof.
  intros (e & Hd & Hc)%query_failed_caught.
  by rewrite _get_status_unfold, Hd, Hc.
Qed.

(** A poll whose query gave the dict [d]. *)
Lemma _poll_status_dict answer w d :
  _get_status json_loads answer w = (Ok (PyDict d), logged status_query w) →
  _poll_status json_loads answer w =
  (Ok true,
   with_self (show_status (default (PyBool false) (d !! "running"))
                (default (PyBool false) (d !! "persistent")) (self w))
     (logged status_query w)).
Proof.
  intros Hg. unfold _poll_status, mbind, M_bind. rewrite Hg.
  reflexivity.
Qed.

(** A poll whose query gave something that is not a dict raises on the
    first [.get] and changes no attribute. *)
Lemma _poll_status_not_dict answer w v :
  _get_status json_loads answer w = (Ok v, logged status_query w) →
  (∀ d, v ≠ PyDict d) →
  ∃ e, _poll_status json_loads answer w = (Raise e, logged status_query w)
       ∧ exn_cls e = AttributeError.
Proof.
  intros Hg Hv. unfold _poll_status, mbind, M_bind. rewrite Hg.
  destruct v; try (eexists; split; reflexivity).
  by destruct (Hv d).
Qed.

(** A poll whose query raised raises the same and changes no attribute. *)
Lemma _poll_status_raised answer w e :
  _get_status json_loads answer w = (Raise e, logged status_query w) →
  _poll_status json_loads answer w = (Raise e, logged status_query w).
Proof.
  intros Hg. unfold _poll_status, mbind, M_bind. by rewrite Hg.
Qed.

(** The two ways a poll ends: the query gave a dict, the attributes and
    the widgets are updated from it and the poll returns [True]; or an
    exception leaves every attribute as it was. *)
Lemma _poll_status_cases answer w :
  (∃ d, _get_status json_loads answer w = (Ok (PyDict d), logged status_query w)
        ∧ _poll_status json_loads answer w =
          (Ok true,
           with_self (show_status (default (PyBool false) (d !! "running"))
                        (default (PyBool false) (d !! "persistent")) (self w))
             (logged status_query w)))
  ∨ (∃ e, _poll_status json_loads answer w = (Raise e, logged status_query w)).
Proof.
  pose proof (_get_status_unfold answer w) as Hg.
  destruct (decoded json_loads answer) as [v|e].
  - destruct v;
      try (right; destruct (_poll_status_not_dict _ _ _ Hg) as (e & -> & _);
           [done|]; by eexists).
    left. exists d. split; [done|]. by apply _poll_status_dict.
  - destruct (caught_by e _).
    + left. unfold default_status in Hg. eexists. split; [done|].
      by apply _poll_status_dict.
    + right. exists e. by apply _poll_status_raised.
Qed.

(** Whatever a poll does, it returns [True] when it returns, it makes one
    status query and no other call, and it attaches and starts nothing. *)
Lemma _poll_status_frame answer w :
  (∀ b, (_poll_status json_loads answer w).1 = Ok b → b = true)
  ∧ calls (_poll_status json_loads answer w).2 = calls w ++ [status_query]
  ∧ sources (_poll_status json_loads answer w).2 = sources w
  ∧ workers (_poll_status json_loads answer w).2 = workers w.
Proof.
  destruct (_poll_status_cases answer w) as [(d & _ & ->)|(e & ->)];
    cbn; naive_solver.
Qed.

(** A poll never touches the sensitivity of the toggle item. *)
Lemma _poll_status_sensitive answer w :
  Gtk.sensitive <$> item_toggle (self (_poll_status json_loads answer w).2)
  = Gtk.sensitive <$> item_toggle (self w).
Proof.
  destruct (_poll_status_cases answer w) as [(d & _ & ->)|(e & ->)]; cbn;
    [|done].
  by destruct (item_toggle (self w)).
Qed.

Lemma _poll_status_appindicator answer w :
  is_appindicator (self (_poll_status json_loads answer w).2)
  = is_appindicator (self w).
Proof.
  destruct (_poll_status_cases answer w) as [(d & _ & ->)|(e & ->)]; cbn;
    [|done].
  unfold is_appindicator. cbn. by destruct (tray (self w)).
Qed.

(** A poll returns exactly when its query yields a dict. *)
Lemma _poll_status_returns answer w :
  status_is_dict json_loads answer →
  ∃ w', _poll_status json_loads answer w = (Ok true, w').
Proof.
  unfold status_is_dict. intros Hs.
  pose proof (_get_status_unfold answer w) as Hg.
  destruct (decoded json_loads answer) as [v|e].
  - destruct v; try done. eexists. by apply _poll_status_dict.
  - rewrite Hs in Hg. eexists. by apply _poll_status_dict.
Qed.

(** A poll whose query failed in one of the three named ways. *)
Lemma _poll_status_failed answer w :
  query_failed json_loads answer →
  ∃ w', _poll_status json_loads answer w = (Ok true, w')
        ∧ running (self w') = PyBool false
        ∧ persistent (self w') = PyBool false.
Proof.
  intros Hf. pose proof (_get_status_failed answer w Hf) as Hg.
  eexists. split; [by apply _poll_status_dict|]. by cbn.
Qed.

(** C1, as amended. Whenever [subprocess.run] raises [TimeoutExpired]
    (the query timed out) or [FileNotFoundError] (the relay binary is
    missing), or it returns and [json.loads] raises [JSONDecodeError] on
    the captured standard output, [_get_status] returns exactly the dict
    with running False, persistent False, camera and device empty, and
    the poll that asked returns normally with both attributes False: no
    exception leaves either method. *)
Theorem C1_failed_query_gives_default_status answer w :
  query_failed json_loads answer →
  (_get_status json_loads answer w).1
  = Ok (PyDict {[ "running" := PyBool false; "persistent" := PyBool false;
                  "camera" := PyStr EmptyString;
                  "device" := PyStr EmptyString ]})
  ∧ ∃ w', _poll_status json_loads answer w = (Ok true, w')
          ∧ running (self w') = PyBool false
          ∧ persistent (self w') = PyBool false.
Proof.
  intros Hf. split.
  - by rewrite _get_status_failed.
  - by apply _poll_status_failed.
Qed.

(** C3, as amended. The exit code of the status query is never looked at:
    when [subprocess.run] returns with a non-zero code, the poll does
    exactly what it does for the code 0 and the same standard output. So
    it gives the default stopped status when [json.loads] raises
    [JSONDecodeError] on the standard output, and when [json.loads]
    returns an object, running and persistent are taken from the object
    (each False when its key is absent), whatever the exit code. *)
Theorem C3_status_exit_code_ignored p w :
  returncode p ≠ 0 →
  _poll_status json_loads (Ok p) w
  = _poll_status json_loads
      (Ok {| returncode := 0; stdout := stdout p; stderr := stderr p |}) w
  ∧ ((∃ e, json_loads (stdout p) = Raise e
           ∧ isinstance e JSONDecodeError = true) →
     ∃ w', _poll_status json_loads (Ok p) w = (Ok true, w')
           ∧ running (self w') = PyBool false
           ∧ persistent (self w') = PyBool false)
  ∧ (∀ d, json_loads (stdout p) = Ok (PyDict d) →
     ∃ w', _poll_status json_loads (Ok p) w = (Ok true, w')
           ∧ running (self w') = default (PyBool false) (d !! "running")
           ∧ persistent (self w') = default (PyBool false) (d !! "persistent")).
Proof.
  intros _. split; [reflexivity|]. split.
  - intros He. by apply _poll_status_failed.
  - intros d Hd. eexists. split.
    + apply _poll_status_dict. by rewrite _get_status_unfold; cbn; rewrite Hd.
    + by cbn.
Qed.

(** C6. After every poll that returns, the toggle item (when the menu has
    been built) is labelled "Stop Relay" exactly when [self.running] is
    true, and "Start Relay" otherwise. *)
Theorem C6_toggle_label_follows_running answer w b w' it :
  _poll_status json_loads answer w = (Ok b, w') →
  item_toggle (self w') = Some it →
  (Gtk.label it = "Stop Relay" ↔ truthy (running (self w')) = true)
  ∧ (truthy (running (self w')) = false → Gtk.label it = "Start Relay")
  ∧ (∀ r : bool, running (self w') = PyBool r →
       Gtk.label it = if r then "Stop Relay" else "Start Relay").
Proof.
  intros Hp Hit.
  destruct (_poll_status_cases answer w) as [(d & _ & Hw)|(e & Hw)];
    rewrite Hw in Hp; [|done].
  injection Hp as _ <-. cbn in *.
  destruct (item_toggle (self w)) as [it0|]; [|done].
  injection Hit as <-. cbn.
  split; [|split].
  - by destruct (truthy _).
  - by intros ->.
  - intros r ->. by destruct r.
Qed.

(** C10. When the status output decodes to a JSON object, [self.running]
    and [self.persistent] are each taken from the object when their key is
    there and are [False] when it is not, one independently of the
    other. *)
Theorem C10_missing_keys_default_to_false p d w :
  json_loads (stdout p) = Ok (PyDict d) →
  ∃ w', _poll_status json_loads (Ok p) w = (Ok true, w')
        ∧ (d !! "running" = None → running (self w') = PyBool false)
        ∧ (d !! "persistent" = None → persistent (self w') = PyBool false)
        ∧ (∀ v, d !! "running" = Some v → running (self w') = v)
        ∧ (∀ v, d !! "persistent" = Some v → persistent (self w') = v).
Proof.
  intros Hd. eexists. split.
  - apply _poll_status_dict. by rewrite _get_status_unfold; cbn; rewrite Hd.
  - cbn. repeat split; by intros; simplify_option_eq.
Qed.

(** ** The action dispatcher *)

(** Activation sets the transitional label, makes the item insensitive and
    starts one worker for the action chosen from [self.running]. *)
Lemma _on_toggle_unfold w :
  _on_toggle w =
  (Ok tt,
   {| self := on_item_toggle
                (λ it, Gtk.set_sensitive false
                         (Gtk.set_label
                            (if truthy (running (self w)) then "Stopping..."
                             else "Starting...") it)) (self w);
      sources := sources w;
      workers := workers w
                 ++ [if truthy (running (self w)) then "stop" else "start"];
      calls := calls w |}).
Proof. reflexivity. Qed.

(** The text of the failure dialog for a completed process. *)
Lemma _run_action_nonzero action p w :
  returncode p ≠ 0 →
  _run_action action (Ok p) w =
  (Ok tt,
   attached
     [IdleSource
        (CB_show_error
           ("Failed to " +:+ action +:+ " relay:" +:+ LF +:+ LF
            +:+ str_or (strip (stderr p))
                  (str_or (strip (stdout p)) "Unknown error")));
      IdleSource CB_poll_status_once]
     (logged (SubprocessRun [RELAY_CMD; action] 15) w)).
Proof.
  intros Hrc. run_M. cbn.
  destruct (Z.eqb_spec (returncode p) 0) as [|_]; [done|]. cbn.
  unfold attached, logged. cbn. by rewrite <- app_assoc.
Qed.

Lemma _run_action_zero action p w :
  returncode p = 0 →
  _run_action action (Ok p) w =
  (Ok tt,
   attached [IdleSource CB_poll_status_once]
     (logged (SubprocessRun [RELAY_CMD; action] 15) w)).
Proof.
  intros Hrc. run_M. cbn. rewrite Hrc. reflexivity.
Qed.

Lemma _run_action_timeout action e w :
  isinstance e TimeoutExpired = true →
  _run_action action (Raise e) w =
  (Ok tt,
   attached
     [IdleSource (CB_show_error ("Timed out trying to " +:+ action +:+ " relay"));
      IdleSource CB_poll_status_once]
     (logged (SubprocessRun [RELAY_CMD; action] 15) w)).
Proof.
  intros He. run_M. cbn. unfold caught_by. cbn. rewrite He. cbn.
  unfold attached, logged. cbn. by rewrite <- app_assoc.
Qed.

Lemma _show_error_unfold message w :
  _show_error message w =
  (Ok false,
   logged (MessageDialog Gtk.ERROR Gtk.BUTTONS_OK "Camera Relay Error" message)
     w).
Proof. reflexivity. Qed.

(** C4, as amended. When a start or stop action exits with a non-zero
    code, the worker queues one error dialog and the one-shot poll. The
    dialog's message is "Failed to <action> relay:", an empty line, and
    then the stripped standard error, or the stripped standard output
    when that is empty, or "Unknown error" when both are. The exit code
    decides that the dialog is shown and nothing else: its value is not
    part of the message. *)
Theorem C4_failure_message_from_stderr_stdout action p w :
  returncode p ≠ 0 →
  ∃ error message,
    (strip (stderr p) ≠ EmptyString → error = strip (stderr p))
    ∧ (strip (stderr p) = EmptyString → strip (stdout p) ≠ EmptyString →
       error = strip (stdout p))
    ∧ (strip (stderr p) = EmptyString → strip (stdout p) = EmptyString →
       error = "Unknown error")
    ∧ message = "Failed to " +:+ action +:+ " relay:" +:+ LF +:+ LF +:+ error
    ∧ _run_action action (Ok p) w =
      (Ok tt,
       attached [IdleSource (CB_show_error message);
                 IdleSource CB_poll_status_once]
         (logged (SubprocessRun [RELAY_CMD; action] 15) w))
    ∧ (∀ w1, _show_error message w1 =
             (Ok false,
              logged (MessageDialog Gtk.ERROR Gtk.BUTTONS_OK
                        "Camera Relay Error" message) w1))
    ∧ (∀ rc, rc ≠ 0 →
         _run_action action
           (Ok {| returncode := rc; stdout := stdout p; stderr := stderr p |}) w
         = _run_action action (Ok p) w).
Proof.
  intros Hrc. do 2 eexists.
  split; [|split; [|split; [|split; [reflexivity|split; [|split]]]]].
  4: by apply _run_action_nonzero.
  - intros H. by destruct (strip (stderr p)).
  - intros -> H. by destruct (strip (stdout p)).
  - by intros -> ->.
  - intros w1. reflexivity.
  - intros rc Hr. by rewrite !_run_action_nonzero.
Qed.

(** However the action ends with an [Exception] or a result, the worker
    queues the one-shot poll last and finishes without an exception. *)
Lemma _run_action_queues_poll_once action answer w :
  match answer with Ok _ => True | Raise e => isinstance e Exception = true end →
  ∃ errors,
    (length errors ≤ 1)%nat
    ∧ _run_action action answer w =
      (Ok tt,
       attached (errors ++ [IdleSource CB_poll_status_once])
         (logged (SubprocessRun [RELAY_CMD; action] 15) w)).
Proof.
  destruct answer as [p|e]; intros He.
  - destruct (decide (returncode p = 0)) as [H0|H0].
    + exists []. split; [cbn; lia|]. by apply _run_action_zero.
    + eexists [_]. split; [cbn; lia|]. by apply _run_action_nonzero.
  - destruct (isinstance e TimeoutExpired) eqn:Ht.
    + eexists [_]. split; [cbn; lia|]. by apply _run_action_timeout.
    + eexists [_]. split; [cbn; lia|].
      run_M. cbn. unfold caught_by. cbn. rewrite He, Ht. cbn.
      unfold attached, logged. cbn. by rewrite <- app_assoc.
Qed.

(** The one-shot poll: when the poll inside it returns, the toggle item
    is made sensitive and the source is not kept; when the poll raises,
    the statement that re-enables the item is not reached. *)
Lemma _poll_status_once_unfold answer w :
  _poll_status_once json_loads answer w =
  match _poll_status json_loads answer w with
  | (Ok _, w') =>
      (Ok false, with_self (on_item_toggle (Gtk.set_sensitive true) (self w')) w')
  | (Raise e, w') => (Raise e, w')
  end.
Proof.
  unfold _poll_status_once, mbind, M_bind.
  by destruct (_poll_status json_loads answer w) as [[b|e] w'].
Qed.

(** ** The main loop *)

(** Dispatching a source whose callback is [_poll_status]: the source
    stays attached whenever the poll returns, since it returns [True]. *)
Lemma dispatch_poll_status i src answer w :
  sources w !! i = Some src →
  source_callback src = CB_poll_status →
  dispatch json_loads i answer w =
  match _poll_status json_loads answer w with
  | (Ok _, w') => w'
  | (Raise _, w') => detach i w'
  end.
Proof.
  intros Hi Hcb. unfold dispatch. rewrite Hi, Hcb. cbn.
  destruct (_poll_status_cases answer w) as [(d & _ & ->)|(e & ->)]; done.
Qed.

Lemma dispatch_poll_status_once i src answer w :
  sources w !! i = Some src →
  source_callback src = CB_poll_status_once →
  dispatch json_loads i answer w =
  detach i (_poll_status_once json_loads answer w).2.
Proof.
  intros Hi Hcb. unfold dispatch. rewrite Hi, Hcb. cbn.
  rewrite _poll_status_once_unfold.
  by destruct (_poll_status json_loads answer w) as [[b|e] w'].
Qed.

Lemma dispatch_show_error i src message answer w :
  sources w !! i = Some src →
  source_callback src = CB_show_error message →
  dispatch json_loads i answer w =
  detach i
    (logged (MessageDialog Gtk.ERROR Gtk.BUTTONS_OK "Camera Relay Error"
               message) w).
Proof.
  intros Hi Hcb. unfold dispatch. by rewrite Hi, Hcb.
Qed.

(** A timer whose callback is [_poll_status] fires again and again: after
    [n] dispatches, each with a status that is a JSON object, it is still
    attached and [n] status queries have been made. *)
Lemma poll_timer_repeats i src p d n w :
  sources w !! i = Some src →
  source_callback src = CB_poll_status →
  json_loads (stdout p) = Ok (PyDict d) →
  sources (run json_loads (replicate n (Dispatch i (Ok p))) w) = sources w
  ∧ calls (run json_loads (replicate n (Dispatch i (Ok p))) w)
    = calls w ++ replicate n status_query.
Proof.
  intros Hi Hcb Hd. revert w Hi.
  induction n as [|n IH]; intros w Hi; cbn.
  - by rewrite app_nil_r.
  - rewrite (dispatch_poll_status _ _ _ _ Hi Hcb).
    rewrite (_poll_status_dict (Ok p) w d)
      by (by rewrite _get_status_unfold; cbn; rewrite Hd).
    destruct (IH (with_self
                    (show_status (default (PyBool false) (d !! "running"))
                       (default (PyBool false) (d !! "persistent")) (self w))
                    (logged status_query w))) as [Hs Hc]; [done|].
    unfold run in Hs, Hc. rewrite Hs, Hc. cbn.
    split; [done|]. by rewrite <- app_assoc.
Qed.

(** ** Persistent mode *)

Lemma _on_persistent_toggle_unfold response popen_answer w :
  _on_persistent_toggle response popen_answer w =
  let spawn argv w0 :=
    match popen_answer with
    | Ok _ => (Ok tt, attached [TimeoutSource 1000 CB_poll_status]
                        (logged (SubprocessPopen argv) w0))
    | Raise e => (Raise e, logged (SubprocessPopen argv) w0)
    end in
  if truthy (persistent (self w))
  then spawn [RELAY_CMD; "disable-persistent"] w
  else
    let w1 := logged (MessageDialog Gtk.WARNING Gtk.BUTTONS_OK_CANCEL
                        "Enable Persistent Mode?" persistent_warning_text) w in
    if bool_decide (response = Gtk.RESPONSE_OK)
    then spawn [RELAY_CMD; "enable-persistent"; "--yes"] w1
    else (Ok tt, w1).
Proof.
  run_M. cbn. destruct (truthy (persistent (self w))); cbn.
  - by destruct popen_answer.
  - destruct (bool_decide (response = Gtk.RESPONSE_OK)); cbn; [|done].
    by destruct popen_answer.
Qed.

(** C7. Activating the persistent-mode item while [self.persistent] is
    true makes one call to the outside and no other: it starts
    [camera-relay disable-persistent]. No dialog is shown. *)
Theorem C7_disable_persistent_needs_no_confirmation response popen_answer w :
  truthy (persistent (self w)) = true →
  ∃ new,
    calls (emit_signal (_on_persistent_toggle response popen_answer) w)
    = calls w ++ new
    ∧ new = [SubprocessPopen [RELAY_CMD; "disable-persistent"]]
    ∧ dialogs new = []
    ∧ invocations new = [[RELAY_CMD; "disable-persistent"]].
Proof.
  intros Hp. eexists. split; [|done].
  unfold emit_signal. rewrite _on_persistent_toggle_unfold. cbn zeta.
  rewrite Hp. by destruct popen_answer.
Qed.


(** What the confirmation dialog leads to. Confirmed, and the child
    started: one [enable-persistent --yes] and one timer of a second on
    [_poll_status]. Not confirmed: the dialog and nothing else. *)
Lemma enable_persistent_confirm_or_cancel response fate w :
  truthy (persistent (self w)) = false →
  let w' := emit_signal (_on_persistent_toggle response (Ok fate)) w in
  (response = Gtk.RESPONSE_OK →
   invocations (drop (length (calls w)) (calls w'))
   = [[RELAY_CMD; "enable-persistent"; "--yes"]]
   ∧ sources w' = sources w ++ [TimeoutSource 1000 CB_poll_status])
  ∧ (response ≠ Gtk.RESPONSE_OK →
     invocations (drop (length (calls w)) (calls w')) = []
     ∧ sources w' = sources w).
Proof.
  intros Hp. unfold emit_signal. rewrite _on_persistent_toggle_unfold.
  cbn zeta. rewrite Hp. split; intros Hr.
  - rewrite bool_decide_eq_true_2 by done. cbn.
    rewrite <- app_assoc, drop_app_length. done.
  - rewrite bool_decide_eq_false_2 by done. cbn.
    rewrite drop_app_length. done.
Qed.

(** ** Start-up *)

(** C8, as amended. Both early exits end the process with status 0 after
    one line on standard error: when neither DISPLAY nor WAYLAND_DISPLAY
    is set, and when one of them is set and not empty, the lock file
    could be opened and [flock] raised an [OSError] because another
    process holds the lock. *)
Theorem C8_early_exits_have_status_zero environ open_answer flock_answer line :
  (environ !! "DISPLAY" = None ∧ environ !! "WAYLAND_DISPLAY" = None
   ∧ line = "camera-relay-systray: No display detected, exiting.")
  ∨ ((str_truthy (environ !! "DISPLAY") = true
      ∨ str_truthy (environ !! "WAYLAND_DISPLAY") = true)
     ∧ is_ok open_answer = true
     ∧ (∃ e, flock_answer = Raise e ∧ isinstance e OSError = true)
     ∧ line = "camera-relay-systray: Another instance is already running.") →
  main_module environ open_answer flock_answer = (SysExit 0, [line]).
Proof.
  unfold main_module.
  intros [(Hd & Hw & ->)|(Hdisp & Hopen & (e & -> & He) & ->)].
  - by rewrite Hd, Hw.
  - destruct open_answer as [[]|]; [|done]. rewrite He.
    by destruct Hdisp as [-> | ->]; rewrite ?andb_false_r.
Qed.

(** ** The toggle item between activation and re-enabling *)

Lemma detach_stuck i w : toggle_stuck w → toggle_stuck (detach i w).
Proof.
  intros (Hs & Hw & Hf & Ha). repeat split; try done. cbn.
  by apply Forall_delete.
Qed.

(** Once the toggle item is stuck, nothing that can happen frees it. *)
Lemma toggle_stuck_step h w :
  toggle_stuck w → toggle_stuck (step json_loads h w).
Proof.
  intros Hst. pose proof Hst as (Hs & Hw & Hf & Ha).
  destruct h as [|response popen_answer| |i answer|i answer]; cbn.
  - destruct (item_toggle (self w)) as [it|]; [|done].
    cbn in Hs. injection Hs as ->. done.
  - destruct (item_persistent (self w)); [|done].
    unfold emit_signal. rewrite _on_persistent_toggle_unfold. cbn zeta.
    destruct (truthy (persistent (self w)));
      [|destruct (bool_decide (response = Gtk.RESPONSE_OK))];
      destruct popen_answer; cbn; repeat split; try done; cbn;
      apply Forall_app; split; try done; by repeat constructor.
  - unfold is_appindicator in Ha. by destruct (tray (self w)).
  - unfold worker_finish. by rewrite Hw.
  - destruct (sources w !! i) as [src|] eqn:Hi;
      [|by unfold dispatch; rewrite Hi].
    pose proof (proj1 (Forall_lookup _ _) Hf i src Hi) as Hne.
    destruct (source_callback src) as [| |message] eqn:Hcb; [|done|].
    + rewrite (dispatch_poll_status _ _ _ _ Hi Hcb).
      assert (toggle_stuck (_poll_status json_loads answer w).2) as Hst'.
      { destruct (_poll_status_frame answer w) as (_ & _ & Hsrc & Hwk).
        repeat split.
        - by rewrite _poll_status_sensitive.
        - by rewrite Hwk.
        - by rewrite Hsrc.
        - by rewrite _poll_status_appindicator. }
      destruct (_poll_status json_loads answer w) as [[b|e] w']; [done|].
      by apply detach_stuck.
    + rewrite (dispatch_show_error _ _ _ _ _ Hi Hcb).
      by apply detach_stuck.
Qed.

Lemma toggle_stuck_run hs w :
  toggle_stuck w → toggle_stuck (run json_loads hs w).
Proof.
  revert w. induction hs as [|h hs IH]; intros w Hst; [done|].
  cbn. apply IH. by apply toggle_stuck_step.
Qed.

(** The path of a start or stop action that ends well: activation makes
    the item insensitive with the transitional label and starts the
    worker; when the action has exited (with any code) or timed out, the
    worker has queued at most one error dialog and then the one-shot poll;
    and when that poll's status query yields a dict, dispatching it makes
    the item sensitive again and removes the one-shot source. *)
Lemma toggle_pending_then_idle it action_answer status_answer w :
  item_toggle (self w) = Some it →
  Gtk.sensitive it = true →
  workers w = [] →
  match action_answer with
  | Ok _ => True
  | Raise e => isinstance e TimeoutExpired = true
  end →
  status_is_dict json_loads status_answer →
  let w1 := step json_loads ActivateToggle w in
  let w2 := step json_loads (WorkerEnds 0 action_answer) w1 in
  item_toggle (self w1)
  = Some {| Gtk.label := if truthy (running (self w)) then "Stopping..."
                         else "Starting...";
            Gtk.sensitive := false |}
  ∧ workers w1 = [if truthy (running (self w)) then "stop" else "start"]
  ∧ ∃ errors,
      (length errors ≤ 1)%nat
      ∧ sources w2 = sources w ++ errors ++ [IdleSource CB_poll_status_once]
      ∧ item_toggle (self w2) = item_toggle (self w1)
      ∧ let w3 := step json_loads
                    (Dispatch (length (sources w ++ errors)) status_answer) w2 in
        Gtk.sensitive <$> item_toggle (self w3) = Some true
        ∧ sources w3 = sources w ++ errors
        ∧ workers w3 = [].
Proof.
  intros Hit Hsens Hw Hact Hstat. cbn zeta. cbn [step].
  rewrite Hit, Hsens. unfold emit_signal. rewrite _on_toggle_unfold. cbn.
  rewrite Hit, Hw. cbn. split; [done|]. split; [done|].
  unfold worker_finish. cbn.
  edestruct (_run_action_queues_poll_once) as (errors & Hlen & ->).
  { destruct action_answer as [|e]; [done|].
    unfold isinstance, issubclass in *.
    destruct e as [[] msg]; try done. }
  exists errors. split; [done|]. cbn. split; [done|]. split; [by rewrite Hit|].
  assert ((sources w ++ errors ++ [IdleSource CB_poll_status_once])
            !! length (sources w ++ errors)
          = Some (IdleSource CB_poll_status_once)) as Hi.
  { rewrite app_assoc. by rewrite list_lookup_middle. }
  erewrite (dispatch_poll_status_once _ (IdleSource CB_poll_status_once));
    [|exact Hi|done].
  rewrite _poll_status_once_unfold.
  lazymatch goal with
  | |- context [_poll_status json_loads status_answer ?w0] =>
      destruct (_poll_status_returns status_answer w0 Hstat) as (w' & Hp);
      pose proof (_poll_status_frame status_answer w0) as (_ & _ & Hsrc & Hwk);
      pose proof (_poll_status_sensitive status_answer w0) as Hsn;
      rewrite Hp in *
  end.
  cbn in *. rewrite Hit in Hsn. cbn in Hsn.
  destruct (item_toggle (self w')) as [it'|]; [|done]. cbn.
  split; [done|]. rewrite Hsrc, Hwk. split; [|done].
  rewrite app_assoc, delete_middle. by rewrite app_nil_r.
Qed.

End Properties.

(** * The properties on sample runs *)

(** C1 as stated fails for malformed output that is not a
    [JSONDecodeError]. A status output that is JSON but no object, [[]],
    is returned by [_get_status] as it is, not as the default dict, and
    makes the poll raise [AttributeError]. A status output that is not
    text in the locale's encoding makes [subprocess.run] raise
    [UnicodeDecodeError], which leaves [_get_status] and the poll. *)
Lemma C1_counterexample :
  (_get_status Json.loads (completed 0 "[]" "") (new_world true)).1
  = Ok (PyList [])
  ∧ (_poll_status Json.loads (completed 0 "[]" "") (new_world true)).1
    = Raise (Exn AttributeError "'list' object has no attribute 'get'")
  ∧ (_get_status Json.loads
       (Raise (Exn UnicodeDecodeError
                 "'utf-8' codec can't decode byte 0xff in position 0"))
       (new_world true)).1
    = Raise (Exn UnicodeDecodeError
               "'utf-8' codec can't decode byte 0xff in position 0")
  ∧ (_poll_status Json.loads
       (Raise (Exn UnicodeDecodeError
                 "'utf-8' codec can't decode byte 0xff in position 0"))
       (new_world true)).1
    = Raise (Exn UnicodeDecodeError
               "'utf-8' codec can't decode byte 0xff in position 0").
Proof. repeat split; vm_compute; reflexivity. Qed.

(** C1 as amended, at a query that exits with 1 and prints a line that
    [json.loads] rejects. *)
Lemma C1_failed_query_witness :
  query_failed Json.loads (completed 1 "camera-relay: not installed" "")
  ∧ (_get_status Json.loads (completed 1 "camera-relay: not installed" "")
       (new_world true)).1
    = Ok (PyDict {[ "running" := PyBool false; "persistent" := PyBool false;
                    "camera" := PyStr EmptyString;
                    "device" := PyStr EmptyString ]})
  ∧ ∃ w', _poll_status Json.loads
            (completed 1 "camera-relay: not installed" "") (new_world true)
          = (Ok true, w')
          ∧ running (self w') = PyBool false
          ∧ persistent (self w') = PyBool false.
Proof.
  assert (query_failed Json.loads
            (completed 1 "camera-relay: not installed" "")) as Hq.
  { unfold completed. cbn. eexists. split; vm_compute; reflexivity. }
  split; [exact Hq|].
  exact (C1_failed_query_gives_default_status Json.loads _ (new_world true) Hq).
Defined.

(** C3 as stated fails: a status query that exits with code 1 and prints
    [{"running": true, "persistent": true}] gives the status running and
    persistent, not the default stopped status. *)
Lemma C3_counterexample :
  ∃ w', _poll_status Json.loads (completed 1 json_running_persistent "")
          (new_world true) = (Ok true, w')
        ∧ running (self w') = PyBool true
        ∧ persistent (self w') = PyBool true
        ∧ running (self w') ≠ PyBool false.
Proof.
  eexists. split; [vm_compute; reflexivity|]. cbn. done.
Qed.

(** C3 as amended, at a query that exits with 1 and prints nothing on
    standard output. *)
Lemma C3_status_exit_code_witness :
  ∃ w', _poll_status Json.loads (completed 1 "" "camera-relay: no camera")
          (new_world true) = (Ok true, w')
        ∧ running (self w') = PyBool false
        ∧ persistent (self w') = PyBool false.
Proof.
  assert ((1 : Z) ≠ 0) as Hrc by lia.
  destruct (C3_status_exit_code_ignored Json.loads
              {| returncode := 1; stdout := "";
                 stderr := "camera-relay: no camera" |}
              (new_world true) Hrc) as (_ & Hbad & _).
  apply Hbad. cbn. eexists. split; vm_compute; reflexivity.
Defined.

(** C4 as stated fails: the dialog for exit code 3 with "boom" on
    standard error reads "Failed to start relay:", an empty line, "boom";
    the digit 3 does not occur in it, and exit code 4 gives the very same
    dialog. *)
Lemma C4_counterexample :
  sources (_run_action "start" (completed 3 "" "boom") (new_world true)).2
  = [IdleSource
       (CB_show_error ("Failed to start relay:" +:+ LF +:+ LF +:+ "boom"));
     IdleSource CB_poll_status_once]
  ∧ String.index 0 "3" ("Failed to start relay:" +:+ LF +:+ LF +:+ "boom")
    = None
  ∧ _run_action "start" (completed 4 "" "boom") (new_world true)
    = _run_action "start" (completed 3 "" "boom") (new_world true).
Proof. repeat split; vm_compute; reflexivity. Qed.

(** C4 as amended, at a stop action that exits with 2: the message is
    made from the stripped standard error. *)
Lemma C4_failure_message_witness :
  ∃ error message,
    (strip ("  camera busy " +:+ LF) ≠ EmptyString →
     error = strip ("  camera busy " +:+ LF))
    ∧ message = "Failed to " +:+ "stop" +:+ " relay:" +:+ LF +:+ LF +:+ error
    ∧ _run_action "stop" (completed 2 "ignored" ("  camera busy " +:+ LF))
        started
      = (Ok tt,
         attached [IdleSource (CB_show_error message);
                   IdleSource CB_poll_status_once]
           (logged (SubprocessRun [RELAY_CMD; "stop"] 15) started)).
Proof.
  assert ((2 : Z) ≠ 0) as Hrc by lia.
  destruct (C4_failure_message_from_stderr_stdout "stop"
              {| returncode := 2; stdout := "ignored";
                 stderr := "  camera busy " +:+ LF |} started Hrc)
    as (error & message & H1 & _ & _ & Hm & Hrun & _).
  exists error, message. auto.
Defined.

(** C6 at a poll of the started indicator that finds the relay running. *)
Lemma C6_toggle_label_witness :
  (Gtk.label {| Gtk.label := "Stop Relay"; Gtk.sensitive := true |}
   = "Stop Relay"
   ↔ truthy (running (self (_poll_status Json.loads
                              (completed 0 json_running_persistent "")
                              started).2)) = true).
Proof.
  refine (proj1 (C6_toggle_label_follows_running Json.loads
                   (completed 0 json_running_persistent "") started true
                   (_poll_status Json.loads
                      (completed 0 json_running_persistent "") started).2
                   {| Gtk.label := "Stop Relay"; Gtk.sensitive := true |}
                   _ _));
    vm_compute; reflexivity.
Defined.

(** C7 at the started indicator with [self.persistent] set. *)
Lemma C7_disable_persistent_witness :
  ∃ new,
    calls (emit_signal
             (_on_persistent_toggle Gtk.RESPONSE_CANCEL (Ok NeverExits))
             (with_self (set_persistent (PyBool true) (self started)) started))
    = calls (with_self (set_persistent (PyBool true) (self started)) started)
      ++ new
    ∧ new = [SubprocessPopen [RELAY_CMD; "disable-persistent"]]
    ∧ dialogs new = []
    ∧ invocations new = [[RELAY_CMD; "disable-persistent"]].
Proof.
  apply C7_disable_persistent_needs_no_confirmation. reflexivity.
Defined.

(** C8 as stated fails when the lock file cannot be opened. Without
    XDG_RUNTIME_DIR the lock file is /tmp/camera-relay-systray.lock; when
    it belongs to another user, whose instance holds the lock, [open]
    raises [PermissionError] outside the [try]: the import ends in a
    traceback, with no line of the program on standard error and not
    with [sys.exit(0)]. *)
Lemma C8_counterexample :
  LOCK_FILE {[ "DISPLAY" := ":0" ]} = "/tmp/camera-relay-systray.lock"
  ∧ main_module {[ "DISPLAY" := ":0" ]}
      (Raise (Exn PermissionError
                "[Errno 13] Permission denied: '/tmp/camera-relay-systray.lock'"))
      (Raise (Exn BlockingIOError
                "[Errno 11] Resource temporarily unavailable"))
    = (Traceback
         (Exn PermissionError
            "[Errno 13] Permission denied: '/tmp/camera-relay-systray.lock'"),
       []).
Proof. split; vm_compute; reflexivity. Qed.

(** C8 as amended, at an empty environment, and at a Wayland session in
    which the lock is held by another instance. *)
Lemma C8_early_exits_witness :
  main_module ∅ (Ok tt) (Ok tt)
  = (SysExit 0, ["camera-relay-systray: No display detected, exiting."])
  ∧ main_module {[ "WAYLAND_DISPLAY" := "wayland-0" ]} (Ok tt)
      (Raise (Exn BlockingIOError
                "[Errno 11] Resource temporarily unavailable"))
    = (SysExit 0,
       ["camera-relay-systray: Another instance is already running."]).
Proof.
  split; apply C8_early_exits_have_status_zero.
  - left. split; [reflexivity|]. split; reflexivity.
  - right. split; [right; reflexivity|]. split; [reflexivity|].
    split; [|reflexivity]. eexists. split; reflexivity.
Defined.

(** C10 at the status output [{"persistent": true}]. *)
Lemma C10_missing_keys_witness :
  ∃ w', _poll_status Json.loads
          (completed 0 ("{" +:+ quoted "persistent" +:+ ": true}") "")
          started = (Ok true, w')
        ∧ running (self w') = PyBool false
        ∧ persistent (self w') = PyBool true.
Proof.
  assert (Json.loads ("{" +:+ quoted "persistent" +:+ ": true}")
          = Ok (PyDict {[ "persistent" := PyBool true ]})) as Hd
    by (vm_compute; reflexivity).
  destruct (C10_missing_keys_default_to_false Json.loads
              {| returncode := 0;
                 stdout := "{" +:+ quoted "persistent" +:+ ": true}";
                 stderr := "" |}
              {[ "persistent" := PyBool true ]} started Hd)
    as (w' & Hp & Hr & _ & _ & Hpv).
  exists w'. split; [exact Hp|]. split.
  - apply Hr. reflexivity.
  - apply Hpv. reflexivity.
Defined.

(** C2 fails on the code. After the user confirmed the dialog, one
    [enable-persistent --yes] was started and one timer of a second on
    [_poll_status] attached next to the periodic one. That timer is not a
    one-shot: [_poll_status] returns [True], so after any number [n] of
    its dispatches it is still attached and has polled [n] times. *)
Theorem C2_repoll_timer_fires_repeatedly (n : nat) :
  invocations (drop (length (calls started)) (calls persistent_confirmed))
  = [[RELAY_CMD; "enable-persistent"; "--yes"]]
  ∧ sources persistent_confirmed
    = [TimeoutSource 5000 CB_poll_status; TimeoutSource 1000 CB_poll_status]
  ∧ sources (run Json.loads
               (replicate n (Dispatch 1 (completed 0 json_stopped "")))
               persistent_confirmed)
    = [TimeoutSource 5000 CB_poll_status; TimeoutSource 1000 CB_poll_status]
  ∧ calls (run Json.loads
             (replicate n (Dispatch 1 (completed 0 json_stopped "")))
             persistent_confirmed)
    = calls persistent_confirmed ++ replicate n status_query.
Proof.
  assert (sources persistent_confirmed
          = [TimeoutSource 5000 CB_poll_status;
             TimeoutSource 1000 CB_poll_status]) as Hs
    by (vm_compute; reflexivity).
  split; [vm_compute; reflexivity|]. split; [exact Hs|].
  destruct (poll_timer_repeats Json.loads 1
              (TimeoutSource 1000 CB_poll_status)
              {| returncode := 0; stdout := json_stopped; stderr := "" |}
              {[ "running" := PyBool false; "persistent" := PyBool false ]}
              n persistent_confirmed) as [Hsrc Hcalls].
  - by rewrite Hs.
  - reflexivity.
  - vm_compute. reflexivity.
  - unfold completed. by rewrite Hsrc, Hcalls.
Qed.

(** The sample run leaves the toggle item stuck. *)
Lemma start_then_odd_status_stuck : toggle_stuck start_then_odd_status.
Proof.
  repeat split; try (vm_compute; reflexivity).
  assert (sources start_then_odd_status = [TimeoutSource 5000 CB_poll_status])
    as -> by (vm_compute; reflexivity).
  by repeat constructor.
Qed.

(** C5 fails on the code. The user clicked "Start Relay",
    [camera-relay start] exited with 0, and the one-shot poll found a
    status output that is JSON but no object. The poll raised before the
    statement that re-enables the item: the item still reads
    "Starting..." and is insensitive, no worker and no one-shot poll is
    left, and whatever happens later the item stays insensitive. *)
Theorem C5_toggle_left_disabled_after_failed_repoll (later : list happening) :
  invocations (calls start_then_odd_status)
  = [[RELAY_CMD; "status"; "--json"]; [RELAY_CMD; "start"];
     [RELAY_CMD; "status"; "--json"]]
  ∧ item_toggle (self start_then_odd_status)
    = Some {| Gtk.label := "Starting..."; Gtk.sensitive := false |}
  ∧ workers start_then_odd_status = []
  ∧ sources start_then_odd_status = [TimeoutSource 5000 CB_poll_status]
  ∧ Gtk.sensitive
    <$> item_toggle (self (run Json.loads later start_then_odd_status))
    = Some false.
Proof.
  split; [vm_compute; reflexivity|].
  split; [vm_compute; reflexivity|].
  split; [vm_compute; reflexivity|].
  split; [vm_compute; reflexivity|].
  apply (toggle_stuck_run Json.loads later _ start_then_odd_status_stuck).
Qed.

(** ** Further sample runs *)

(** A start action that times out, with a status query afterwards that
    finds the relay stopped: the item goes through "Starting..." and
    insensitive, the worker queues the dialog and the one-shot poll, and
    the poll makes the item sensitive again. *)
Lemma toggle_pending_then_idle_witness :
  item_toggle (self (step Json.loads ActivateToggle started))
  = Some {| Gtk.label := "Starting..."; Gtk.sensitive := false |}
  ∧ ∃ errors,
      sources (run Json.loads
                 [ActivateToggle;
                  WorkerEnds 0 (Raise (Exn TimeoutExpired "timed out"))]
                 started)
      = sources started ++ errors ++ [IdleSource CB_poll_status_once]
      ∧ Gtk.sensitive
        <$> item_toggle
              (self (run Json.loads
                       [ActivateToggle;
                        WorkerEnds 0 (Raise (Exn TimeoutExpired "timed out"));
                        Dispatch (length (sources started ++ errors))
                          (completed 0 json_stopped "")]
                       started))
        = Some true.
Proof.
  destruct (toggle_pending_then_idle Json.loads
              {| Gtk.label := "Start Relay"; Gtk.sensitive := true |}
              (Raise (Exn TimeoutExpired "timed out"))
              (completed 0 json_stopped "") started)
    as (Hpending & _ & errors & _ & Hsrc & _ & Hidle & _).
  - vm_compute. reflexivity.
  - reflexivity.
  - vm_compute. reflexivity.
  - reflexivity.
  - vm_compute. exact I.
  - split; [exact Hpending|]. exists errors. split; [exact Hsrc|exact Hidle].
Defined.

(** The confirmation dialog answered with OK and with Cancel. *)
Lemma enable_persistent_confirm_or_cancel_witness :
  (invocations
     (drop (length (calls started))
        (calls (emit_signal
                  (_on_persistent_toggle Gtk.RESPONSE_OK (Ok (ExitsWith 1)))
                  started)))
   = [[RELAY_CMD; "enable-persistent"; "--yes"]]
   ∧ sources (emit_signal
                (_on_persistent_toggle Gtk.RESPONSE_OK (Ok (ExitsWith 1)))
                started)
     = sources started ++ [TimeoutSource 1000 CB_poll_status])
  ∧ (invocations
       (drop (length (calls started))
          (calls (emit_signal
                    (_on_persistent_toggle Gtk.RESPONSE_CANCEL
                       (Ok (ExitsWith 1)))
                    started)))
     = []
     ∧ sources (emit_signal
                  (_on_persistent_toggle Gtk.RESPONSE_CANCEL
                     (Ok (ExitsWith 1)))
                  started)
       = sources started).
Proof.
  assert (truthy (persistent (self started)) = false) as Hp
    by (vm_compute; reflexivity).
  split.
  - apply (enable_persistent_confirm_or_cancel Gtk.RESPONSE_OK
             (ExitsWith 1) started Hp). reflexivity.
  - apply (enable_persistent_confirm_or_cancel Gtk.RESPONSE_CANCEL
             (ExitsWith 1) started Hp). discriminate.
Defined.

(** A poll that finds the relay running and not persistent. *)
Example poll_running_not_persistent :
  self (_poll_status Json.loads (completed 0 json_running "") started).2
  = {| running := PyBool true; persistent := PyBool false;
       tray := AppIndicator "camera-video-symbolic";
       item_toggle :=
         Some {| Gtk.label := "Stop Relay"; Gtk.sensitive := true |};
       item_persistent :=
         Some {| Gtk.label := "Enable Persistent Mode";
                 Gtk.sensitive := true |};
       item_status :=
         Some {| Gtk.label := "Status: RUNNING"; Gtk.sensitive := false |} |}.
Proof. vm_compute. reflexivity. Qed.

(** The user clicks "Start Relay" and the action times out: the dialog
    says so, the item is sensitive again, and a status query was made
    right after the action. *)
Example start_times_out :
  let w := run Json.loads
             [ActivateToggle;
              WorkerEnds 0 (Raise (Exn TimeoutExpired "timed out"));
              Dispatch 1 (completed 0 json_stopped "");
              Dispatch 1 (completed 0 json_stopped "")]
             started in
  dialogs (calls w)
  = [MessageDialog Gtk.ERROR Gtk.BUTTONS_OK "Camera Relay Error"
       "Timed out trying to start relay"]
  ∧ item_toggle (self w)
    = Some {| Gtk.label := "Start Relay"; Gtk.sensitive := true |}
  ∧ invocations (calls w)
    = [[RELAY_CMD; "status"; "--json"]; [RELAY_CMD; "start"];
       [RELAY_CMD; "status"; "--json"]]
  ∧ sources w = [TimeoutSource 5000 CB_poll_status].
Proof. vm_compute. repeat split; reflexivity. Qed.

(** * More properties of the controller *)

Section MoreProperties.

Variable json_loads : string → result pyval.

(** ** Polling *)

(** After a poll that returns, the persistent-mode item, the status line
    and the tray icon all show the two attributes just read, and no item
    has changed its sensitivity. *)
Theorem poll_presents_both_attributes answer w b w' :
  _poll_status json_loads answer w = (Ok b, w') →
  (∀ it, item_persistent (self w') = Some it →
     Gtk.label it = if truthy (persistent (self w'))
                    then "Disable Persistent Mode"
                    else "Enable Persistent Mode")
  ∧ (∀ it, item_status (self w') = Some it →
       Gtk.label it
       = "Status: "
         +:+ (if truthy (running (self w')) then "RUNNING" else "STOPPED")
         +:+ (if truthy (persistent (self w')) then " (persistent)" else ""))
  ∧ tray_icon (self w')
    = (if truthy (running (self w')) then "camera-video-symbolic"
       else "camera-disabled-symbolic")
  ∧ Gtk.sensitive <$> item_toggle (self w')
    = Gtk.sensitive <$> item_toggle (self w)
  ∧ Gtk.sensitive <$> item_persistent (self w')
    = Gtk.sensitive <$> item_persistent (self w)
  ∧ Gtk.sensitive <$> item_status (self w')
    = Gtk.sensitive <$> item_status (self w).
Proof.
  intros Hp.
  destruct (_poll_status_cases json_loads answer w)
    as [(d & _ & Hw)|(e & Hw)]; rewrite Hw in Hp; [|done].
  injection Hp as _ <-. unfold tray_icon. cbn.
  destruct (item_toggle (self w)), (item_persistent (self w)),
    (item_status (self w)), (tray (self w)); cbn;
    repeat split; try done; try (by intros it [= <-]).
Qed.

(** A poll that raises has made its one status query and changed nothing
    else: no attribute, no widget, no source, no worker. *)
Theorem poll_that_raises_changes_nothing answer w e w' :
  _poll_status json_loads answer w = (Raise e, w') →
  self w' = self w
  ∧ sources w' = sources w
  ∧ workers w' = workers w
  ∧ calls w' = calls w ++ [status_query].
Proof.
  intros Hp.
  destruct (_poll_status_cases json_loads answer w)
    as [(d & _ & Hw)|(e' & Hw)]; rewrite Hw in Hp; [done|].
  by injection Hp as _ <-.
Qed.

(** A status output that decodes to JSON but not to an object is not
    treated as "stopped": the poll raises [AttributeError], naming the
    type that has no [get]. *)
Theorem poll_of_non_object_raises p v w :
  json_loads (stdout p) = Ok v →
  (∀ d, v ≠ PyDict d) →
  _poll_status json_loads (Ok p) w
  = (Raise (Exn AttributeError
              ("'" +:+ type_name v +:+ "' object has no attribute 'get'")),
     logged status_query w).
Proof.
  intros Hv Hn.
  assert (_get_status json_loads (Ok p) w = (Ok v, logged status_query w))
    as Hg by (by rewrite _get_status_unfold; cbn; rewrite Hv).
  unfold _poll_status, mbind, M_bind. rewrite Hg.
  destruct v; try reflexivity. by destruct (Hn d).
Qed.

(** Only the three named exceptions are turned into the default status:
    any other exception of the query or of the decoder (a
    [PermissionError], say) leaves [_get_status] and the poll as it is. *)
Theorem other_exceptions_leave_the_poll answer e w :
  decoded json_loads answer = Raise e →
  isinstance e TimeoutExpired = false →
  isinstance e JSONDecodeError = false →
  isinstance e FileNotFoundError = false →
  _get_status json_loads answer w = (Raise e, logged status_query w)
  ∧ _poll_status json_loads answer w = (Raise e, logged status_query w).
Proof.
  intros Hd Ht Hj Hf.
  assert (_get_status json_loads answer w = (Raise e, logged status_query w))
    as Hg.
  { rewrite _get_status_unfold, Hd. unfold caught_by. cbn.
    by rewrite Ht, Hj, Hf. }
  split; [exact Hg|]. by apply _poll_status_raised.
Qed.

(** Of a status object only "running" and "persistent" are read: two
    outputs whose objects agree on these two keys are polled alike,
    whatever else they hold. *)
Theorem poll_reads_two_keys_only p1 p2 d1 d2 w :
  json_loads (stdout p1) = Ok (PyDict d1) →
  json_loads (stdout p2) = Ok (PyDict d2) →
  d1 !! "running" = d2 !! "running" →
  d1 !! "persistent" = d2 !! "persistent" →
  _poll_status json_loads (Ok p1) w = _poll_status json_loads (Ok p2) w.
Proof.
  intros H1 H2 Hr Hp.
  rewrite (_poll_status_dict json_loads (Ok p1) w d1)
    by (by rewrite _get_status_unfold; cbn; rewrite H1).
  rewrite (_poll_status_dict json_loads (Ok p2) w d2)
    by (by rewrite _get_status_unfold; cbn; rewrite H2).
  by rewrite Hr, Hp.
Qed.

Lemma self_ext (s1 s2 : CameraRelaySystray) :
  running s1 = running s2 →
  persistent s1 = persistent s2 →
  tray s1 = tray s2 →
  item_toggle s1 = item_toggle s2 →
  item_persistent s1 = item_persistent s2 →
  item_status s1 = item_status s2 →
  s1 = s2.
Proof.
  destruct s1, s2. cbn. by intros -> -> -> -> -> ->.
Qed.

(** What a poll shows depends on its own status only: after two polls the
    object is as if the second had been the only one. *)
Theorem last_poll_wins answer1 answer2 w :
  status_is_dict json_loads answer2 →
  self (_poll_status json_loads answer2
          (_poll_status json_loads answer1 w).2).2
  = self (_poll_status json_loads answer2 w).2.
Proof.
  intros H2.
  assert (∀ r p r' p' s,
            show_status r p (show_status r' p' s) = show_status r p s) as Hidem.
  { intros r p r' p' s. apply self_ext; try reflexivity.
    - change (tray (show_status r p (show_status r' p' s)))
        with (match tray (show_status r' p' s) with
              | AppIndicator _ =>
                  AppIndicator (if truthy r then "camera-video-symbolic"
                                else "camera-disabled-symbolic")
              | StatusIcon _ =>
                  StatusIcon (if truthy r then "camera-video-symbolic"
                              else "camera-disabled-symbolic")
              end).
      change (tray (show_status r' p' s))
        with (match tray s with
              | AppIndicator _ =>
                  AppIndicator (if truthy r' then "camera-video-symbolic"
                                else "camera-disabled-symbolic")
              | StatusIcon _ =>
                  StatusIcon (if truthy r' then "camera-video-symbolic"
                              else "camera-disabled-symbolic")
              end).
      change (tray (show_status r p s))
        with (match tray s with
              | AppIndicator _ =>
                  AppIndicator (if truthy r then "camera-video-symbolic"
                                else "camera-disabled-symbolic")
              | StatusIcon _ =>
                  StatusIcon (if truthy r then "camera-video-symbolic"
                              else "camera-disabled-symbolic")
              end).
      by destruct (tray s).
    - change (item_toggle (show_status r p (show_status r' p' s)))
        with (Gtk.set_label (if truthy r then "Stop Relay" else "Start Relay")
              <$> (Gtk.set_label
                     (if truthy r' then "Stop Relay" else "Start Relay")
                   <$> item_toggle s)).
      change (item_toggle (show_status r p s))
        with (Gtk.set_label (if truthy r then "Stop Relay" else "Start Relay")
              <$> item_toggle s).
      by destruct (item_toggle s).
    - change (item_persistent (show_status r p (show_status r' p' s)))
        with (Gtk.set_label (if truthy p then "Disable Persistent Mode"
                             else "Enable Persistent Mode")
              <$> (Gtk.set_label (if truthy p' then "Disable Persistent Mode"
                                  else "Enable Persistent Mode")
                   <$> item_persistent s)).
      change (item_persistent (show_status r p s))
        with (Gtk.set_label (if truthy p then "Disable Persistent Mode"
                             else "Enable Persistent Mode")
              <$> item_persistent s).
      by destruct (item_persistent s).
    - change (item_status (show_status r p (show_status r' p' s)))
        with (Gtk.set_label
                ("Status: " +:+ (if truthy r then "RUNNING" else "STOPPED")
                 +:+ (if truthy p then " (persistent)" else ""))
              <$> (Gtk.set_label
                     ("Status: "
                      +:+ (if truthy r' then "RUNNING" else "STOPPED")
                      +:+ (if truthy p' then " (persistent)" else ""))
                   <$> item_status s)).
      change (item_status (show_status r p s))
        with (Gtk.set_label
                ("Status: " +:+ (if truthy r then "RUNNING" else "STOPPED")
                 +:+ (if truthy p then " (persistent)" else ""))
              <$> item_status s).
      by destruct (item_status s). }
  unfold status_is_dict in H2.
  destruct (decoded json_loads answer2) as [v2|e2] eqn:Hd2.
  - destruct v2; try done.
    assert (∀ w0, _poll_status json_loads answer2 w0
                  = (Ok true,
                     with_self
                       (show_status (default (PyBool false) (d !! "running"))
                          (default (PyBool false) (d !! "persistent"))
                          (self w0))
                       (logged status_query w0))) as Hp.
    { intros w0. apply _poll_status_dict.
      by rewrite _get_status_unfold, Hd2. }
    rewrite !Hp. cbn.
    destruct (_poll_status_cases json_loads answer1 w)
      as [(d1 & _ & ->)|(e1 & ->)]; cbn; [|done].
    apply Hidem.
  - assert (∀ w0, _poll_status json_loads answer2 w0
                  = (Ok true,
                     with_self
                       (show_status (PyBool false) (PyBool false) (self w0))
                       (logged status_query w0))) as Hp.
    { intros w0.
      rewrite (_poll_status_dict json_loads answer2 w0
                 {[ "running" := PyBool false; "persistent" := PyBool false;
                    "camera" := PyStr EmptyString;
                    "device" := PyStr EmptyString ]}); [done|].
      by rewrite _get_status_unfold, Hd2, H2. }
    rewrite !Hp. cbn.
    destruct (_poll_status_cases json_loads answer1 w)
      as [(d1 & _ & ->)|(e1 & ->)]; cbn; [|done].
    apply Hidem.
Qed.

(** ** What one happening does *)

Ltac unfold_M :=
  unfold _run_action, try_except, subprocess_run, GLib_idle_add, attach, emit,
    lift, raise, mbind, M_bind, mret, M_ret in *;
  cbn [handle fst snd] in *.

(** The worker, whatever the action does: one [subprocess.run], then
    either the sources it queues (at most one dialog with a message of its
    own, and the one-shot poll) or, for an exception that is no
    [Exception], nothing. *)
Lemma _run_action_effect action answer w :
  ∃ queued,
    (_run_action action answer w).2
    = attached queued (logged (SubprocessRun [RELAY_CMD; action] 15) w)
    ∧ Forall (λ src, src = IdleSource CB_poll_status_once
                     ∨ ∃ m, src = IdleSource (CB_show_error m)
                            ∧ action_error_message m) queued
    ∧ (length (List.filter is_once queued) ≤ 1)%nat.
Proof.
  assert (∀ m, action_error_message m →
            Forall (λ src, src = IdleSource CB_poll_status_once
                           ∨ ∃ m, src = IdleSource (CB_show_error m)
                                  ∧ action_error_message m)
              [IdleSource (CB_show_error m); IdleSource CB_poll_status_once])
    as Hboth.
  { intros m Hm. apply Forall_cons. split; [right; by exists m|].
    apply Forall_cons. split; [by left|]. apply Forall_nil_2. }
  destruct answer as [p|e].
  - destruct (decide (returncode p = 0)) as [H0|H0].
    + rewrite _run_action_zero by done. eexists. split; [done|].
      split; [|done]. apply Forall_cons. split; [by left|].
      apply Forall_nil_2.
    + rewrite _run_action_nonzero by done. eexists. split; [done|].
      split; [|done]. apply Hboth. left. by eexists _, _.
  - destruct (isinstance e TimeoutExpired) eqn:Ht.
    + rewrite _run_action_timeout by done. eexists. split; [done|].
      split; [|done]. apply Hboth. right. left. by eexists.
    + destruct (isinstance e Exception) eqn:Hx.
      * exists [IdleSource (CB_show_error ("Error: " +:+ exn_str e));
                IdleSource CB_poll_status_once].
        split; [|split; [|done]].
        -- unfold_M. cbn. unfold caught_by. cbn. rewrite Ht, Hx. cbn.
           unfold attached, logged. cbn. by rewrite <- app_assoc.
        -- apply Hboth. right. right. by eexists.
      * exists []. split; [|split; [apply Forall_nil_2|cbn; lia]].
        unfold_M. cbn. unfold caught_by. cbn. rewrite Ht, Hx. cbn.
        unfold attached, logged. cbn. by rewrite app_nil_r.
Qed.

(** What the persistent-mode handler leaves: the same object and workers,
    one or two calls of its own, and at most the timer of a second. *)
Lemma _on_persistent_toggle_effect response popen_answer w :
  ∃ new_calls queued,
    (_on_persistent_toggle response popen_answer w).2
    = {| self := self w; sources := sources w ++ queued;
         workers := workers w; calls := calls w ++ new_calls |}
    ∧ Forall expected_call new_calls
    ∧ Forall (λ ev, match ev with
                    | SubprocessPopen _
                    | MessageDialog Gtk.WARNING _ _ _ => True
                    | _ => False
                    end) new_calls
    ∧ (queued = [] ∨ queued = [TimeoutSource 1000 CB_poll_status]).
Proof.
  rewrite _on_persistent_toggle_unfold. cbn zeta.
  destruct (truthy (persistent (self w)));
    [|destruct (bool_decide (response = Gtk.RESPONSE_OK))];
    destruct popen_answer; cbn; unfold attached, logged; cbn.
  1,2: exists [SubprocessPopen [RELAY_CMD; "disable-persistent"]].
  3,4: exists [MessageDialog Gtk.WARNING Gtk.BUTTONS_OK_CANCEL
                 "Enable Persistent Mode?" persistent_warning_text;
               SubprocessPopen [RELAY_CMD; "enable-persistent"; "--yes"]].
  5,6: exists [MessageDialog Gtk.WARNING Gtk.BUTTONS_OK_CANCEL
                 "Enable Persistent Mode?" persistent_warning_text].
  1,3: exists [TimeoutSource 1000 CB_poll_status].
  3-6: exists [].
  all: rewrite <- ?app_assoc, ?app_nil_r; cbn;
    (split; [reflexivity|]);
    (split; [repeat constructor; cbn; auto|]);
    (split; [repeat constructor|]); auto.
Qed.

(** What one happening adds. Every new call is the status query, the
    action of a worker that was running, a call of the persistent-mode
    handler, or the dialog of an error source that was queued; every new
    source is the timer of the persistent-mode handler or was queued by a
    worker; every new worker runs start or stop. *)
Lemma step_effect h w :
  ∃ new_calls,
    calls (step json_loads h w) = calls w ++ new_calls
    ∧ (∀ ev, ev ∈ new_calls →
         ev = status_query
         ∨ (∃ action, action ∈ workers w
                      ∧ ev = SubprocessRun [RELAY_CMD; action] 15)
         ∨ (expected_call ev
            ∧ match ev with
              | SubprocessPopen _ | MessageDialog Gtk.WARNING _ _ _ => True
              | _ => False
              end)
         ∨ (∃ src m, src ∈ sources w ∧ source_callback src = CB_show_error m
                     ∧ ev = MessageDialog Gtk.ERROR Gtk.BUTTONS_OK
                              "Camera Relay Error" m))
    ∧ (∀ src, src ∈ sources (step json_loads h w) →
         src ∈ sources w
         ∨ src = TimeoutSource 1000 CB_poll_status
         ∨ src = IdleSource CB_poll_status_once
         ∨ ∃ m, src = IdleSource (CB_show_error m) ∧ action_error_message m)
    ∧ (∀ a, a ∈ workers (step json_loads h w) →
         a ∈ workers w ∨ known_action a).
Proof.
  assert (∃ new_calls : list event,
            calls w = calls w ++ new_calls
            ∧ (∀ ev, ev ∈ new_calls →
                 ev = status_query
                 ∨ (∃ action, action ∈ workers w
                              ∧ ev = SubprocessRun [RELAY_CMD; action] 15)
                 ∨ (expected_call ev
                    ∧ match ev with
                      | SubprocessPopen _
                      | MessageDialog Gtk.WARNING _ _ _ => True
                      | _ => False
                      end)
                 ∨ (∃ src m, src ∈ sources w
                             ∧ source_callback src = CB_show_error m
                             ∧ ev = MessageDialog Gtk.ERROR Gtk.BUTTONS_OK
                                      "Camera Relay Error" m))) as Hnone.
  { exists []. split; [by rewrite app_nil_r|]. intros ev Hev.
    by apply elem_of_nil in Hev. }
  destruct h as [|response popen_answer| |i answer|i answer]; cbn.
  - (* the toggle item *)
    destruct (item_toggle (self w)) as [it|];
      [destruct (Gtk.sensitive it)|];
      try (destruct Hnone as (nc & Hc & Hev); exists nc; by auto).
    unfold emit_signal. rewrite _on_toggle_unfold. cbn.
    destruct Hnone as (nc & Hc & Hev). exists nc.
    split; [done|]. split; [done|]. split; [by auto|].
    intros a [Ha|Ha%list_elem_of_singleton]%elem_of_app; [by left|].
    right. unfold known_action. destruct (truthy _); auto.
  - (* the persistent-mode item *)
    destruct (item_persistent (self w));
      [|destruct Hnone as (nc & Hc & Hev); exists nc; by auto].
    unfold emit_signal.
    destruct (_on_persistent_toggle_effect response popen_answer w)
      as (nc & queued & -> & Hexp & Hshape & Hq). cbn.
    exists nc. split; [done|]. split; [|split; [|by auto]].
    + intros ev Hev. right. right. left.
      split; [by apply (proj1 (Forall_forall _ _) Hexp)|].
      by apply (proj1 (Forall_forall _ _) Hshape).
    + intros src [Hs|Hs]%elem_of_app; [by left|].
      destruct Hq as [-> | ->]; [by apply elem_of_nil in Hs|].
      apply list_elem_of_singleton in Hs. auto.
  - (* the pop-up menu *)
    destruct (tray (self w));
      destruct Hnone as (nc & Hc & Hev); exists nc; by auto.
  - (* a worker ends *)
    unfold worker_finish.
    destruct (workers w !! i) as [action|] eqn:Hi;
      [|destruct Hnone as (nc & Hc & Hev); exists nc; by auto].
    destruct (_run_action_effect action answer
                {| self := self w; sources := sources w;
                   workers := delete i (workers w); calls := calls w |})
      as (queued & -> & Hq & _). cbn.
    exists [SubprocessRun [RELAY_CMD; action] 15].
    split; [done|]. split; [|split].
    + intros ev ->%list_elem_of_singleton. right. left. exists action.
      split; [|done]. by eapply list_elem_of_lookup_2.
    + intros src [Hs|Hs]%elem_of_app; [by left|].
      destruct (proj1 (Forall_forall _ _) Hq src Hs) as [->|Hm]; auto.
    + intros a Ha. left. by eapply list_elem_of_delete_inv.
  - (* a source is dispatched *)
    destruct (sources w !! i) as [src|] eqn:Hi;
      [|unfold dispatch; rewrite Hi;
        destruct Hnone as (nc & Hc & Hev); exists nc; by auto].
    destruct (source_callback src) as [| |message] eqn:Hcb.
    + rewrite (dispatch_poll_status json_loads _ _ _ _ Hi Hcb).
      destruct (_poll_status_frame json_loads answer w)
        as (_ & Hc & Hs & Hw).
      exists [status_query].
      destruct (_poll_status json_loads answer w) as [[b|e] w']; cbn in *.
      * split; [done|]. split; [|split].
        -- intros ev ->%list_elem_of_singleton. by left.
        -- intros s0 Hs0. left. by rewrite <- Hs.
        -- intros a Ha. left. by rewrite <- Hw.
      * split; [done|]. split; [|split].
        -- intros ev ->%list_elem_of_singleton. by left.
        -- intros s0 Hs0%list_elem_of_delete_inv. left. by rewrite <- Hs.
        -- intros a Ha. left. by rewrite <- Hw.
    + rewrite (dispatch_poll_status_once json_loads _ _ _ _ Hi Hcb).
      rewrite _poll_status_once_unfold.
      destruct (_poll_status_frame json_loads answer w)
        as (_ & Hc & Hs & Hw).
      exists [status_query].
      destruct (_poll_status json_loads answer w) as [[b|e] w']; cbn in *;
        (split; [done|]); (split; [|split]);
        try (intros ev ->%list_elem_of_singleton; by left);
        try (intros s0 Hs0%list_elem_of_delete_inv; left; by rewrite <- Hs);
        try (intros a Ha; left; by rewrite <- Hw).
    + rewrite (dispatch_show_error json_loads _ _ _ _ _ Hi Hcb). cbn.
      eexists [_]. split; [done|]. split; [|split].
      * intros ev ->%list_elem_of_singleton. right. right. right.
        exists src, message. split; [|done].
        by eapply list_elem_of_lookup_2.
      * intros s0 Hs0%list_elem_of_delete_inv. by left.
      * intros a Ha. by left.
Qed.

(** ** What a run never does *)

(** Whatever happens while the loop runs, the indicator calls nothing but
    the relay command with one of its five argument lists (the status
    query with a timeout of 5 seconds, start and stop with 15) and shows
    nothing but its two dialogs; and every worker runs start or stop. *)
Theorem run_makes_expected_calls_only hs w :
  Forall known_action (workers w) →
  ∃ new_calls,
    calls (run json_loads hs w) = calls w ++ new_calls
    ∧ Forall expected_call new_calls
    ∧ Forall known_action (workers (run json_loads hs w)).
Proof.
  revert w. induction hs as [|h hs IH]; intros w Hw.
  - exists []. split; [by rewrite app_nil_r|]. split; [constructor|done].
  - cbn. destruct (step_effect h w) as (nc & Hc & Hev & _ & Hwk).
    assert (Forall known_action (workers (step json_loads h w))) as Hw'.
    { apply Forall_forall. intros a [Ha|Ha]%Hwk; [|done].
      by apply (proj1 (Forall_forall _ _) Hw). }
    destruct (IH _ Hw') as (nc' & Hc' & Hexp' & Hwk').
    exists (nc ++ nc'). unfold run in *.
    split; [by rewrite Hc', Hc, app_assoc|]. split; [|done].
    apply Forall_app. split; [|done].
    apply Forall_forall. intros ev Hin.
    destruct (Hev ev Hin)
      as [->|[(a & Ha & ->)|[[He _]|(src & m & _ & _ & ->)]]].
    + cbn. by left.
    + cbn. right. split; [|done].
      by destruct (proj1 (Forall_forall _ _) Hw a Ha) as [-> | ->]; auto.
    + done.
    + done.
Qed.


(** ** One action at a time *)

Lemma once_count_app (l1 l2 : list source) :
  length (List.filter is_once (l1 ++ l2))
  = (length (List.filter is_once l1) + length (List.filter is_once l2))%nat.
Proof. by rewrite List.filter_app, length_app. Qed.

Lemma once_count_delete (l : list source) i src :
  l !! i = Some src →
  length (List.filter is_once l)
  = ((if is_once src then 1 else 0)
     + length (List.filter is_once (delete i l)))%nat.
Proof.
  revert i. induction l as [|x l IH]; intros [|i] Hi; try done.
  - injection Hi as ->. cbn. by destruct (is_once src).
  - cbn in Hi. specialize (IH i Hi).
    change (delete (S i) (x :: l)) with (x :: delete i l).
    change (List.filter is_once (x :: l))
      with (if is_once x then x :: List.filter is_once l
            else List.filter is_once l).
    change (List.filter is_once (x :: delete i l))
      with (if is_once x then x :: List.filter is_once (delete i l)
            else List.filter is_once (delete i l)).
    destruct (is_once x); cbn [length]; lia.
Qed.

Lemma one_at_a_time_step h w :
  one_at_a_time w → one_at_a_time (step json_loads h w).
Proof.
  intros (Happ & it & Hit & Hcond). unfold one_at_a_time.
  destruct h as [|response popen_answer| |i answer|i answer]; cbn.
  - (* the toggle item *)
    rewrite Hit. destruct (Gtk.sensitive it) eqn:Hs;
      [|split; [done|]; exists it; by rewrite Hs].
    unfold emit_signal. rewrite _on_toggle_unfold. cbn.
    split; [done|]. rewrite Hit. cbn. eexists. split; [done|]. cbn.
    unfold in_flight, pending_once in *. cbn. rewrite length_app. cbn. lia.
  - (* the persistent-mode item *)
    destruct (item_persistent (self w));
      [|split; [done|]; by exists it].
    unfold emit_signal.
    destruct (_on_persistent_toggle_effect response popen_answer w)
      as (nc & queued & -> & _ & _ & Hq). cbn.
    split; [done|]. exists it. split; [done|].
    unfold in_flight, pending_once in *. cbn. rewrite once_count_app.
    assert (length (List.filter is_once queued) = 0%nat) as ->
      by (by destruct Hq as [-> | ->]).
    destruct (Gtk.sensitive it); lia.
  - (* the pop-up menu *)
    unfold is_appindicator in Happ.
    destruct (tray (self w)) eqn:Ht; [|done].
    split; [by unfold is_appindicator; rewrite Ht|].
    by exists it.
  - (* a worker ends *)
    unfold worker_finish.
    destruct (workers w !! i) as [action|] eqn:Hi;
      [|split; [done|]; by exists it].
    destruct (_run_action_effect action answer
                {| self := self w; sources := sources w;
                   workers := delete i (workers w); calls := calls w |})
      as (queued & -> & _ & Hq). cbn.
    split; [done|]. exists it. split; [done|].
    assert (length (workers w) = S (length (delete i (workers w)))) as Hlen.
    { rewrite length_delete by done.
      apply lookup_lt_Some in Hi. lia. }
    unfold in_flight, pending_once in *. cbn. rewrite once_count_app.
    destruct (Gtk.sensitive it); lia.
  - (* a source is dispatched *)
    destruct (sources w !! i) as [src|] eqn:Hi;
      [|unfold dispatch; rewrite Hi; split; [done|]; by exists it].
    pose proof (once_count_delete _ _ _ Hi) as Hcount.
    destruct (source_callback src) as [| |message] eqn:Hcb.
    + rewrite (dispatch_poll_status json_loads _ _ _ _ Hi Hcb).
      pose proof (_poll_status_frame json_loads answer w)
        as (_ & _ & Hs & Hw).
      pose proof (_poll_status_sensitive json_loads answer w) as Hsn.
      pose proof (_poll_status_appindicator json_loads answer w) as Hap.
      assert (is_once src = false) as Hno
        by (unfold is_once; by rewrite Hcb).
      rewrite Hno in Hcount.
      destruct (_poll_status json_loads answer w) as [[b|e] w']; cbn in *;
        rewrite Hit in Hsn; cbn in Hsn;
        (split; [by rewrite Hap|]);
        destruct (item_toggle (self w')) as [it'|]; try done;
        injection Hsn as Hsn; exists it'; (split; [done|]);
        rewrite Hsn; unfold in_flight, pending_once in *; cbn;
        rewrite Hs, Hw; destruct (Gtk.sensitive it); lia.
    + rewrite (dispatch_poll_status_once json_loads _ _ _ _ Hi Hcb).
      rewrite _poll_status_once_unfold.
      pose proof (_poll_status_frame json_loads answer w)
        as (_ & _ & Hs & Hw).
      pose proof (_poll_status_sensitive json_loads answer w) as Hsn.
      pose proof (_poll_status_appindicator json_loads answer w) as Hap.
      assert (is_once src = true) as Hyes
        by (unfold is_once; by rewrite Hcb).
      rewrite Hyes in Hcount.
      assert (Gtk.sensitive it = false
              ∧ workers w = []
              ∧ length (List.filter is_once (delete i (sources w))) = 0%nat)
        as (Hins & Hnow & Hnone).
      { unfold in_flight, pending_once in Hcond.
        destruct (Gtk.sensitive it); [lia|].
        split; [done|]. split; [|lia].
        destruct (workers w); [done|cbn in Hcond; lia]. }
      destruct (_poll_status json_loads answer w) as [[b|e] w']; cbn in *;
        rewrite Hit in Hsn; cbn in Hsn;
        destruct (item_toggle (self w')) as [it'|] eqn:Hit'; try done;
        injection Hsn as Hsn.
      * split; [by rewrite <- Happ, <- Hap|].
        eexists. split; [done|]. cbn.
        by rewrite Hs, Hw, Hnow, Hnone.
      * split; [by rewrite Hap|]. exists it'. split; [done|].
        rewrite Hsn, Hins, Hs, Hw, Hnow, Hnone. cbn. lia.
    + rewrite (dispatch_show_error json_loads _ _ _ _ _ Hi Hcb). cbn.
      assert (is_once src = false) as Hno
        by (unfold is_once; by rewrite Hcb).
      rewrite Hno in Hcount.
      split; [done|]. exists it. split; [done|].
      unfold in_flight, pending_once in *. cbn.
      destruct (Gtk.sensitive it); lia.
Qed.

(** With the indicator's menu, at most one start or stop action is under
    way at any time: the toggle item cannot be activated again before the
    one-shot poll of the running action has been dispatched. *)
Theorem one_action_at_a_time hs w :
  one_at_a_time w →
  one_at_a_time (run json_loads hs w)
  ∧ (length (workers (run json_loads hs w))
     + pending_once (run json_loads hs w) ≤ 1)%nat.
Proof.
  intros Hinv.
  assert (one_at_a_time (run json_loads hs w)) as Hrun.
  { revert w Hinv. induction hs as [|h hs IH]; intros w Hinv; [done|].
    cbn. apply IH. by apply one_at_a_time_step. }
  split; [done|].
  destruct Hrun as (_ & it & _ & Hcond). unfold in_flight in Hcond.
  destruct (Gtk.sensitive it); lia.
Qed.

(** ** The status-icon fallback *)

(** With the status icon every pop-up builds a new menu that knows
    nothing of the state: the toggle item reads "Start Relay" and is
    sensitive, whatever [self.running] is and whether or not an action is
    under way, and activating it runs the action chosen from
    [self.running], which is stop when the relay runs. *)
Theorem popup_menu_forgets_state w :
  is_appindicator (self w) = false →
  item_toggle (self (step json_loads PopupMenu w))
  = Some {| Gtk.label := "Start Relay"; Gtk.sensitive := true |}
  ∧ item_persistent (self (step json_loads PopupMenu w))
    = Some {| Gtk.label := "Enable Persistent Mode"; Gtk.sensitive := true |}
  ∧ item_status (self (step json_loads PopupMenu w))
    = Some {| Gtk.label := "Status: checking..."; Gtk.sensitive := false |}
  ∧ workers (run json_loads [PopupMenu; ActivateToggle] w)
    = workers w ++ [if truthy (running (self w)) then "stop" else "start"].
Proof.
  intros Hf. unfold is_appindicator in Hf. unfold run. cbn.
  destruct (tray (self w)) eqn:Ht; [done|]. cbn. done.
Qed.

(** So the fallback does not keep actions apart: opening the menu again
    while an action runs gives a sensitive item, and a second worker can
    be started beside the first. *)
Theorem fallback_allows_two_actions w :
  is_appindicator (self w) = false →
  workers (run json_loads
             [PopupMenu; ActivateToggle; PopupMenu; ActivateToggle] w)
  = workers w
    ++ [if truthy (running (self w)) then "stop" else "start";
        if truthy (running (self w)) then "stop" else "start"].
Proof.
  intros Hf. unfold is_appindicator in Hf. unfold run. cbn.
  destruct (tray (self w)) eqn:Ht; [done|].
  unfold emit_signal, _on_status_icon_popup, _build_menu, modify_self. cbn.
  rewrite _on_toggle_unfold. cbn. rewrite _on_toggle_unfold. cbn.
  by rewrite <- app_assoc.
Qed.

(** ** Construction *)

Lemma status_is_dict_poll answer :
  status_is_dict json_loads answer →
  ∃ d : gmap string pyval,
    ∀ w, _poll_status json_loads answer w
            = (Ok true,
               with_self
                 (show_status (default (PyBool false) (d !! "running"))
                    (default (PyBool false) (d !! "persistent")) (self w))
                 (logged status_query w)).
Proof.
  unfold status_is_dict. intros Hs.
  destruct (decoded json_loads answer) as [v|e] eqn:Hd.
  - destruct v; try done. exists d. intros w.
    apply _poll_status_dict. by rewrite _get_status_unfold, Hd.
  - eexists. intros w. apply _poll_status_dict.
    by rewrite _get_status_unfold, Hd, Hs.
Qed.

Lemma not_status_is_dict_poll answer :
  ¬ status_is_dict json_loads answer →
  ∃ e, ∀ w, _poll_status json_loads answer w
            = (Raise e, logged status_query w).
Proof.
  unfold status_is_dict. intros Hs.
  destruct (decoded json_loads answer) as [v|e] eqn:Hd.
  - destruct v;
      try (eexists; intros w; unfold _poll_status, mbind, M_bind;
           rewrite _get_status_unfold, Hd; reflexivity).
    by destruct Hs.
  - exists e. intros w. apply _poll_status_raised.
    rewrite _get_status_unfold, Hd.
    by destruct (caught_by e _).
Qed.

(** [CameraRelaySystray()] with a first status query that yields a dict:
    the constructor makes that one query, attaches one timer of five
    seconds on [_poll_status] and nothing else, and leaves the attributes
    read from the status. With an indicator library the menu exists and
    already shows the status; without one there is no menu item yet and
    two lines went to standard error. *)
Theorem init_polls_then_attaches_timer USE_APPINDICATOR answer :
  status_is_dict json_loads answer →
  ∃ w, __init__ json_loads USE_APPINDICATOR answer
         (new_world USE_APPINDICATOR) = (Ok tt, w)
       ∧ sources w = [TimeoutSource 5000 CB_poll_status]
       ∧ workers w = []
       ∧ invocations (calls w) = [[RELAY_CMD; "status"; "--json"]]
       ∧ dialogs (calls w) = []
       ∧ tray_icon (self w)
         = (if truthy (running (self w)) then "camera-video-symbolic"
            else "camera-disabled-symbolic")
       ∧ if USE_APPINDICATOR
         then length (calls w) = 1%nat
              ∧ item_toggle (self w)
                = Some {| Gtk.label := if truthy (running (self w))
                                       then "Stop Relay" else "Start Relay";
                          Gtk.sensitive := true |}
              ∧ is_appindicator (self w) = true
         else length (calls w) = 3%nat
              ∧ item_toggle (self w) = None
              ∧ item_persistent (self w) = None
              ∧ item_status (self w) = None
              ∧ is_appindicator (self w) = false.
Proof.
  intros (d & Hp)%status_is_dict_poll.
  unfold __init__, mbind, M_bind.
  destruct USE_APPINDICATOR; cbn; rewrite Hp; cbn;
    eexists; (split; [reflexivity|]); cbn; unfold tray_icon; cbn;
    repeat split; reflexivity.
Qed.

(** When the first status query does not yield a dict (its output is
    JSON but no object, or it raised something other than the three named
    exceptions), the constructor raises: no timer is attached, and the
    program ends before the main loop starts. *)
Theorem init_raises_with_first_poll USE_APPINDICATOR answer :
  ¬ status_is_dict json_loads answer →
  ∃ e w, __init__ json_loads USE_APPINDICATOR answer
           (new_world USE_APPINDICATOR) = (Raise e, w)
         ∧ sources w = []
         ∧ invocations (calls w) = [[RELAY_CMD; "status"; "--json"]].
Proof.
  intros (e & Hp)%not_status_is_dict_poll.
  unfold __init__, mbind, M_bind.
  destruct USE_APPINDICATOR; cbn; rewrite Hp; cbn;
    eexists _, _; (split; [reflexivity|]); cbn; by split.
Qed.

(** ** The worker's report *)

(** The worker queues an error dialog exactly when the action did not
    exit with 0, and always the one-shot poll after it. An exception
    other than a timeout (the relay binary is missing, say) is reported
    as "Error: " followed by the text of the exception. *)
Theorem worker_shows_error_unless_exit_zero action answer w :
  match answer with
  | Ok _ => True
  | Raise e => isinstance e Exception = true
  end →
  ∃ queued,
    _run_action action answer w
    = (Ok tt,
       attached (queued ++ [IdleSource CB_poll_status_once])
         (logged (SubprocessRun [RELAY_CMD; action] 15) w))
    ∧ queued
      = match answer with
        | Ok p =>
            if returncode p =? 0 then []
            else [IdleSource
                    (CB_show_error
                       ("Failed to " +:+ action +:+ " relay:" +:+ LF +:+ LF
                        +:+ str_or (strip (stderr p))
                              (str_or (strip (stdout p)) "Unknown error")))]
        | Raise e =>
            [IdleSource
               (CB_show_error
                  (if isinstance e TimeoutExpired
                   then "Timed out trying to " +:+ action +:+ " relay"
                   else "Error: " +:+ exn_str e))]
        end.
Proof.
  destruct answer as [p|e]; intros He.
  - destruct (Z.eqb_spec (returncode p) 0) as [H0|H0].
    + exists []. split; [|done]. by apply _run_action_zero.
    + eexists. split; [|done]. by apply _run_action_nonzero.
  - destruct (isinstance e TimeoutExpired) eqn:Ht.
    + eexists. split; [|done]. by apply _run_action_timeout.
    + eexists. split; [|done].
      unfold_M. cbn. unfold caught_by. cbn. rewrite Ht, He. cbn.
      unfold attached, logged. cbn. by rewrite <- app_assoc.
Qed.

(** ** Persistent mode *)

(** When the persistent-mode command cannot be started ([Popen] raises,
    the binary being missing, say), the handler ends with that exception
    right after the attempt: no poll is scheduled, no attribute changes
    and no error dialog is made. *)
Theorem persistent_command_that_cannot_start response e w :
  truthy (persistent (self w)) = true ∨ response = Gtk.RESPONSE_OK →
  ∃ w', _on_persistent_toggle response (Raise e) w = (Raise e, w')
        ∧ self w' = self w
        ∧ sources w' = sources w
        ∧ calls w'
          = calls w
            ++ (if truthy (persistent (self w))
                then [SubprocessPopen [RELAY_CMD; "disable-persistent"]]
                else [MessageDialog Gtk.WARNING Gtk.BUTTONS_OK_CANCEL
                        "Enable Persistent Mode?" persistent_warning_text;
                      SubprocessPopen
                        [RELAY_CMD; "enable-persistent"; "--yes"]]).
Proof.
  intros Hcase. rewrite _on_persistent_toggle_unfold. cbn zeta.
  destruct (truthy (persistent (self w))) eqn:Hp.
  - eexists. split; [reflexivity|]. by cbn.
  - destruct Hcase as [Hc | ->]; [done|]. cbn.
    eexists. split; [reflexivity|]. cbn. by rewrite <- app_assoc.
Qed.

(** Every activation that disables persistent mode starts one more
    [disable-persistent] and attaches one more timer of a second; none of
    them is ever replaced or removed by the handler, so [k] activations
    in a row leave [k] processes started and [k] timers attached. *)
Theorem persistent_timers_accumulate k response fate w :
  is_Some (item_persistent (self w)) →
  truthy (persistent (self w)) = true →
  sources (run json_loads
             (replicate k (ActivatePersistent response (Ok fate))) w)
  = sources w ++ replicate k (TimeoutSource 1000 CB_poll_status)
  ∧ calls (run json_loads
             (replicate k (ActivatePersistent response (Ok fate))) w)
    = calls w
      ++ replicate k (SubprocessPopen [RELAY_CMD; "disable-persistent"]).
Proof.
  revert w. induction k as [|k IH]; intros w Hit Hp; cbn.
  - by rewrite !app_nil_r.
  - destruct Hit as [it Hit]. rewrite Hit.
    unfold emit_signal. rewrite _on_persistent_toggle_unfold. cbn zeta.
    rewrite Hp. cbn.
    destruct (IH (attached [TimeoutSource 1000 CB_poll_status]
                    (logged (SubprocessPopen
                               [RELAY_CMD; "disable-persistent"]) w)))
      as [Hs Hc]; [by cbn; rewrite Hit|done|].
    unfold run in Hs, Hc. rewrite Hs, Hc. cbn.
    by rewrite <- !app_assoc.
Qed.

(** ** Import of the module *)


(** A display variable that is set but empty counts as not set. *)
Theorem empty_display_counts_as_none environ open_answer flock_answer :
  environ !! "DISPLAY" = None ∨ environ !! "DISPLAY" = Some EmptyString →
  environ !! "WAYLAND_DISPLAY" = None
  ∨ environ !! "WAYLAND_DISPLAY" = Some EmptyString →
  main_module environ open_answer flock_answer
  = (SysExit 0, ["camera-relay-systray: No display detected, exiting."]).
Proof.
  unfold main_module. by intros [-> | ->] [-> | ->].
Qed.

End MoreProperties.

(** * The further properties on sample runs *)



(** A poll of the started indicator that finds the relay running and
    persistent. *)
Lemma poll_presents_both_attributes_witness :
  (∀ it,
     item_persistent
       (self (_poll_status Json.loads
                (completed 0 json_running_persistent "") started).2)
     = Some it →
     Gtk.label it = "Disable Persistent Mode")
  ∧ tray_icon
      (self (_poll_status Json.loads
               (completed 0 json_running_persistent "") started).2)
    = "camera-video-symbolic".
Proof.
  destruct (poll_presents_both_attributes Json.loads
              (completed 0 json_running_persistent "") started true
              (_poll_status Json.loads
                 (completed 0 json_running_persistent "") started).2)
    as (Hp & _ & Hicon & _).
  - vm_compute. reflexivity.
  - split; [exact Hp|exact Hicon].
Defined.

(** A poll that finds the JSON value [null]. *)
Lemma poll_that_raises_witness :
  self (_poll_status Json.loads (completed 0 "null" "") started).2
  = self started
  ∧ sources (_poll_status Json.loads (completed 0 "null" "") started).2
    = sources started.
Proof.
  destruct (poll_that_raises_changes_nothing Json.loads
              (completed 0 "null" "") started
              (Exn AttributeError
                 "'NoneType' object has no attribute 'get'")
              (_poll_status Json.loads (completed 0 "null" "") started).2)
    as (Hself & Hsrc & _).
  - vm_compute. reflexivity.
  - split; [exact Hself|exact Hsrc].
Defined.

(** A status output that is a JSON string. *)
Lemma poll_of_non_object_witness :
  _poll_status Json.loads (completed 0 (quoted "stopped") "") started
  = (Raise (Exn AttributeError "'str' object has no attribute 'get'"),
     logged status_query started).
Proof.
  apply (poll_of_non_object_raises Json.loads
           {| returncode := 0; stdout := quoted "stopped"; stderr := "" |}
           (PyStr "stopped") started).
  - vm_compute. reflexivity.
  - intros d. discriminate.
Defined.

(** A relay binary that may not be executed. *)
Lemma other_exceptions_witness :
  _poll_status Json.loads
    (Raise (Exn PermissionError "[Errno 13] Permission denied")) started
  = (Raise (Exn PermissionError "[Errno 13] Permission denied"),
     logged status_query started).
Proof.
  apply (other_exceptions_leave_the_poll Json.loads
           (Raise (Exn PermissionError "[Errno 13] Permission denied"))
           (Exn PermissionError "[Errno 13] Permission denied") started);
    reflexivity.
Defined.

(** The status output
    [{"running": true, "persistent": false, "camera": "ov02c10"}]. *)
Lemma poll_reads_two_keys_witness :
  _poll_status Json.loads
    (completed 0
       ("{" +:+ quoted "running" +:+ ": true, " +:+ quoted "persistent"
        +:+ ": false, " +:+ quoted "camera" +:+ ": " +:+ quoted "ov02c10"
        +:+ "}") "") started
  = _poll_status Json.loads (completed 0 json_running "") started.
Proof.
  apply (poll_reads_two_keys_only Json.loads
           {| returncode := 0;
              stdout := "{" +:+ quoted "running" +:+ ": true, "
                        +:+ quoted "persistent" +:+ ": false, "
                        +:+ quoted "camera" +:+ ": " +:+ quoted "ov02c10"
                        +:+ "}";
              stderr := "" |}
           {| returncode := 0; stdout := json_running; stderr := "" |}
           {[ "running" := PyBool true; "persistent" := PyBool false;
              "camera" := PyStr "ov02c10" ]}
           {[ "running" := PyBool true; "persistent" := PyBool false ]}
           started);
    vm_compute; reflexivity.
Defined.

(** A poll that finds the relay running, then one that times out. *)
Lemma last_poll_wins_witness :
  self (_poll_status Json.loads (Raise (Exn TimeoutExpired "timed out"))
          (_poll_status Json.loads (completed 0 json_running "") started).2).2
  = self (_poll_status Json.loads (Raise (Exn TimeoutExpired "timed out"))
            started).2.
Proof.
  apply (last_poll_wins Json.loads). vm_compute. reflexivity.
Defined.

(** A click on the toggle item, a failing start, its dialog and its
    poll, and a confirmed enabling of persistent mode. *)
Lemma run_makes_expected_calls_witness :
  ∃ new_calls,
    calls (run Json.loads
             [ActivateToggle;
              WorkerEnds 0 (completed 1 "" "no camera");
              Dispatch 1 (completed 0 json_stopped "");
              Dispatch 1 (completed 0 json_stopped "");
              ActivatePersistent Gtk.RESPONSE_OK (Ok (ExitsWith 0))]
             started)
    = calls started ++ new_calls
    ∧ Forall expected_call new_calls.
Proof.
  destruct (run_makes_expected_calls_only Json.loads
              [ActivateToggle;
               WorkerEnds 0 (completed 1 "" "no camera");
               Dispatch 1 (completed 0 json_stopped "");
               Dispatch 1 (completed 0 json_stopped "");
               ActivatePersistent Gtk.RESPONSE_OK (Ok (ExitsWith 0))]
              started) as (new_calls & Hc & Hexp & _).
  - assert (workers started = []) as -> by (vm_compute; reflexivity).
    constructor.
  - exists new_calls. split; [exact Hc|exact Hexp].
Defined.



Lemma started_one_at_a_time : one_at_a_time started.
Proof.
  split; [vm_compute; reflexivity|].
  eexists. split; vm_compute; reflexivity.
Qed.

(** Two clicks on the toggle item in a row start one worker. *)
Lemma one_action_at_a_time_witness :
  (length (workers (run Json.loads [ActivateToggle; ActivateToggle] started))
   + pending_once (run Json.loads [ActivateToggle; ActivateToggle] started)
   ≤ 1)%nat.
Proof.
  exact (proj2 (one_action_at_a_time Json.loads
                  [ActivateToggle; ActivateToggle] started
                  started_one_at_a_time)).
Defined.

(** The fallback with the relay running: the fresh menu offers "Start
    Relay", and activating it stops the relay. *)
Lemma popup_menu_forgets_state_witness :
  truthy (running (self started_fallback)) = true
  ∧ item_toggle (self (step Json.loads PopupMenu started_fallback))
    = Some {| Gtk.label := "Start Relay"; Gtk.sensitive := true |}
  ∧ workers (run Json.loads [PopupMenu; ActivateToggle] started_fallback)
    = workers started_fallback ++ ["stop"].
Proof.
  assert (is_appindicator (self started_fallback) = false) as Hf
    by (vm_compute; reflexivity).
  destruct (popup_menu_forgets_state Json.loads started_fallback Hf)
    as (Hit & _ & _ & Hw).
  split; [vm_compute; reflexivity|]. split; [exact Hit|].
  rewrite Hw. vm_compute. reflexivity.
Defined.

Lemma fallback_allows_two_actions_witness :
  length (workers (run Json.loads
                     [PopupMenu; ActivateToggle; PopupMenu; ActivateToggle]
                     started_fallback)) = 2%nat.
Proof.
  assert (is_appindicator (self started_fallback) = false) as Hf
    by (vm_compute; reflexivity).
  rewrite (fallback_allows_two_actions Json.loads started_fallback Hf).
  vm_compute. reflexivity.
Defined.

(** Construction with an indicator library and the relay stopped. *)
Lemma init_polls_then_attaches_timer_witness :
  ∃ w, __init__ Json.loads true (completed 0 json_stopped "") (new_world true)
       = (Ok tt, w)
       ∧ sources w = [TimeoutSource 5000 CB_poll_status].
Proof.
  destruct (init_polls_then_attaches_timer Json.loads true
              (completed 0 json_stopped "")) as (w & Hi & Hs & _).
  - vm_compute. exact I.
  - exists w. split; [exact Hi|exact Hs].
Defined.

(** Construction when the status query prints a JSON number. *)
Lemma init_raises_with_first_poll_witness :
  ∃ e w, __init__ Json.loads false (completed 0 "0" "") (new_world false)
         = (Raise e, w)
         ∧ sources w = [].
Proof.
  destruct (init_raises_with_first_poll Json.loads false
              (completed 0 "0" "")) as (e & w & Hi & Hs & _).
  - vm_compute. intros [].
  - exists e, w. split; [exact Hi|exact Hs].
Defined.

(** A start action for a relay binary that is not there. *)
Lemma worker_shows_error_witness :
  ∃ queued,
    _run_action "start"
      (Raise (Exn FileNotFoundError
                "[Errno 2] No such file or directory")) started
    = (Ok tt,
       attached (queued ++ [IdleSource CB_poll_status_once])
         (logged (SubprocessRun [RELAY_CMD; "start"] 15) started))
    ∧ queued
      = [IdleSource
           (CB_show_error "Error: [Errno 2] No such file or directory")].
Proof.
  apply (worker_shows_error_unless_exit_zero "start"
           (Raise (Exn FileNotFoundError
                     "[Errno 2] No such file or directory")) started).
  reflexivity.
Defined.

(** Enabling persistent mode, confirmed, for a relay binary that is not
    there. *)
Lemma persistent_command_that_cannot_start_witness :
  ∃ w', _on_persistent_toggle Gtk.RESPONSE_OK
          (Raise (Exn FileNotFoundError "[Errno 2] No such file or directory"))
          started
        = (Raise (Exn FileNotFoundError
                    "[Errno 2] No such file or directory"), w')
        ∧ self w' = self started
        ∧ sources w' = sources started.
Proof.
  destruct (persistent_command_that_cannot_start Gtk.RESPONSE_OK
              (Exn FileNotFoundError "[Errno 2] No such file or directory")
              started) as (w' & Hr & Hself & Hsrc & _).
  - right. reflexivity.
  - exists w'. split; [exact Hr|]. split; [exact Hself|exact Hsrc].
Defined.

(** Three activations of "Disable Persistent Mode" in a row. *)
Lemma persistent_timers_accumulate_witness :
  sources (run Json.loads
             (replicate 3
                (ActivatePersistent Gtk.RESPONSE_NONE (Ok NeverExits)))
             (with_self (set_persistent (PyBool true) (self started)) started))
  = [TimeoutSource 5000 CB_poll_status; TimeoutSource 1000 CB_poll_status;
     TimeoutSource 1000 CB_poll_status; TimeoutSource 1000 CB_poll_status].
Proof.
  destruct (persistent_timers_accumulate Json.loads 3 Gtk.RESPONSE_NONE
              NeverExits
              (with_self (set_persistent (PyBool true) (self started))
                 started)) as [Hs _].
  - vm_compute. by eexists.
  - vm_compute. reflexivity.
  - rewrite Hs. vm_compute. reflexivity.
Defined.

(** A session in which both display variables are set and empty. *)
Lemma empty_display_counts_as_none_witness :
  main_module {[ "DISPLAY" := EmptyString; "WAYLAND_DISPLAY" := EmptyString ]}
    (Ok tt) (Ok tt)
  = (SysExit 0, ["camera-relay-systray: No display detected, exiting."]).
Proof.
  apply empty_display_counts_as_none; right; reflexivity.
Defined.
